(** * Payload builder of the aitl-cli client (src/src/cli/main.py)

    Shallow embedding of [_get_endpoint], [_create_template],
    [make_job_create_request] and the [create_job] command handler.
    Python exceptions are modelled by the result type [result] below;
    JSON-serialisable values (the dicts and lists that are built) by [json],
    with dicts as association lists kept in insertion order. *)

From Stdlib Require Import String Ascii List ZArith Bool Lia.
Import ListNotations.
Open Scope string_scope.
Set Warnings "-register-all".

(** ** Python values and exceptions *)

(** The values that occur in the payload: Python [None], ints, strings,
    lists (and tuples, which serialise identically) and dicts. *)
Inductive json : Type :=
| JNull
| JInt (z : Z)
| JStr (s : string)
| JList (l : list json)
| JObj (kv : list (string * json)).

(** A priority as Python's [int] receives it: click hands over strings,
    the unit test passes ints. *)
Inductive pyobj : Type :=
| PyInt (z : Z)
| PyStr (s : string).

(** The only exception class raised on these paths. *)
Inductive exc : Type :=
| ValueError (msg : string).

Inductive result (A : Type) : Type :=
| Ok (a : A)
| Raise (e : exc).
Arguments Ok {A} a.
Arguments Raise {A} e.

Definition bind {A B} (m : result A) (k : A -> result B) : result B :=
  match m with
  | Ok a => k a
  | Raise e => Raise e
  end.

Notation "'let!' x := m 'in' k" := (bind m (fun x => k))
  (at level 200, x name, m at level 100, right associativity).

(** [None] and [""] are the falsy strings; the code only tests truthiness
    of the optional string arguments. *)
Definition truthy (o : option string) : bool :=
  match o with
  | Some (String _ _) => true
  | _ => false
  end.

Definition opt_json (o : option string) : json :=
  match o with
  | Some s => JStr s
  | None => JNull
  end.

(** ** Dicts: [d[k] = v] updates in place or appends; [k in d]; [d[k]] *)

Fixpoint setitem (k : string) (v : json) (d : list (string * json))
  : list (string * json) :=
  match d with
  | [] => [(k, v)]
  | (k', v') :: d' =>
      if String.eqb k k' then (k, v) :: d' else (k', v') :: setitem k v d'
  end.

Fixpoint lookup (k : string) (d : list (string * json)) : option json :=
  match d with
  | [] => None
  | (k', v') :: d' => if String.eqb k k' then Some v' else lookup k d'
  end.

Definition has_key (k : string) (d : list (string * json)) : bool :=
  match lookup k d with Some _ => true | None => false end.

(** ** [str.split(sep)] and [sep.join(parts)] for a one-character separator *)

Fixpoint py_split (sep : ascii) (s : string) : list string :=
  match s with
  | EmptyString => [""]
  | String c rest =>
      match py_split sep rest with
      | [] => [""]
      | hd :: tl =>
          if Ascii.eqb c sep then "" :: hd :: tl else String c hd :: tl
      end
  end.

Fixpoint py_join (sep : ascii) (parts : list string) : string :=
  match parts with
  | [] => ""
  | [p] => p
  | p :: ps => p ++ String sep (py_join sep ps)
  end.

Definition contains_char (c : ascii) (s : string) : bool :=
  existsb (fun d => Ascii.eqb d c) (list_ascii_of_string s).

(** ** [int(x)] with base 10, as CPython computes it

    [int] of an int is the int itself.  [int] of a str [u] is
    [PyLong_FromUnicodeObject(u, 10)]: [_PyUnicode_TransformDecimalAndSpaceToASCII]
    turns [u] into an ASCII buffer, [PyLong_FromString] parses the buffer as
    a C string (up to its first NUL), and the call returns only when that
    parse succeeded and consumed the whole buffer.  Otherwise it raises
    [ValueError]: the [int_max_str_digits] error when the digit run is
    longer than the limit, "invalid literal" with [%.200R] of [u] else.
    A character of a Rocq string stands for the Unicode code point of the
    same number (U+0000 to U+00FF). *)

(** [Py_ISSPACE]: the ASCII whitespace the parser skips. *)
Definition is_space (c : ascii) : bool :=
  let n := nat_of_ascii c in (Nat.leb 9 n && Nat.leb n 13) || Nat.eqb n 32.

Definition is_digit (c : ascii) : bool :=
  let n := nat_of_ascii c in Nat.leb 48 n && Nat.leb n 57.

Definition digit_val (c : ascii) : Z := Z.of_nat (nat_of_ascii c - 48).

(** [_PyUnicode_TransformDecimalAndSpaceToASCII]: an ASCII string is kept
    as it is.  Otherwise characters below 127 are kept, Unicode whitespace
    (U+0085 and U+00A0 in this range) becomes a space, and the first other
    character (none of this range is a decimal digit) becomes '?', which
    ends the result. *)
Definition is_ascii_char (c : ascii) : bool := Nat.ltb (nat_of_ascii c) 128.

Fixpoint transform_nonascii (cs : list ascii) : list ascii :=
  match cs with
  | [] => []
  | c :: cs' =>
      let n := nat_of_ascii c in
      if Nat.ltb n 127 then c :: transform_nonascii cs'
      else if Nat.eqb n 133 || Nat.eqb n 160 then " "%char :: transform_nonascii cs'
      else ["?"%char]
  end.

Definition transform_decimal_and_space (cs : list ascii) : list ascii :=
  if forallb is_ascii_char cs then cs else transform_nonascii cs.

(** The buffer read as a C string: up to its first NUL. *)
Fixpoint c_string (cs : list ascii) : list ascii :=
  match cs with
  | [] => []
  | c :: cs' => if Nat.eqb (nat_of_ascii c) 0 then [] else c :: c_string cs'
  end.

Fixpoint drop_space (cs : list ascii) : list ascii :=
  match cs with
  | c :: cs' => if is_space c then drop_space cs' else cs
  | [] => []
  end.

(** The scan of [PyLong_FromString] over digits and underscores: the number
    of digits, their decimal value, whether the last character scanned was
    '_', and the rest; [None] at a second consecutive '_'. *)
Fixpoint scan_digits (cs : list ascii) (prev_us : bool) (digits : nat) (acc : Z)
  : option (nat * Z * bool * list ascii) :=
  match cs with
  | c :: cs' =>
      if is_digit c then scan_digits cs' false (S digits) (acc * 10 + digit_val c)
      else if Ascii.eqb c "_" then
        if prev_us then None else scan_digits cs' true digits acc
      else Some (digits, acc, prev_us, cs)
  | [] => Some (digits, acc, prev_us, [])
  end.

(** The default of [sys.get_int_max_str_digits()]. *)
Definition max_str_digits : nat := 4300.

(** What [PyLong_FromString] does with a C string in base 10: a value with
    the whole string consumed, a syntax error ([goto onError]), or the
    error for more than [max_str_digits] digits (raised before the rest of
    the string is looked at). *)
Inductive long_parse : Type :=
| ParsedValue (z : Z)
| SyntaxError
| TooManyDigits (digits : nat).

Definition long_from_string (cs : list ascii) : long_parse :=
  let cs := drop_space cs in
  let '(neg, cs) :=
    match cs with
    | c :: cs' =>
        if Ascii.eqb c "+" then (false, cs')
        else if Ascii.eqb c "-" then (true, cs') else (false, cs)
    | [] => (false, cs)
    end in
  let leading_us := match cs with c :: _ => Ascii.eqb c "_" | [] => false end in
  if leading_us then SyntaxError else
  match scan_digits cs false 0 0 with
  | None => SyntaxError
  | Some (digits, acc, last_us, rest) =>
      if last_us then SyntaxError
      else if Nat.ltb max_str_digits digits then TooManyDigits digits
      else if Nat.eqb digits 0 then SyntaxError
      else
        match drop_space rest with
        | [] => ParsedValue (if neg then Z.opp acc else acc)
        | _ => SyntaxError
        end
  end.

(** [repr] of a str ([unicode_repr]): single quotes unless the string
    contains a single quote and no double quote; the quote and the
    backslash are escaped, tab, newline and carriage return by letter,
    other control characters and the non-printable U+007F to U+00A0 and
    U+00AD as [\xhh] with lowercase hex digits. *)
Definition dquote : ascii := ascii_of_nat 34.

Definition hex_digit (n : nat) : ascii :=
  ascii_of_nat (if Nat.ltb n 10 then 48 + n else 87 + n).

Definition hex_escape (n : nat) : string :=
  String "\" (String "x" (String (hex_digit (n / 16))
                            (String (hex_digit (n mod 16)) ""))).

Definition repr_char (quote c : ascii) : string :=
  let n := nat_of_ascii c in
  if Ascii.eqb c quote || Ascii.eqb c "\" then String "\" (String c "")
  else if Nat.eqb n 9 then "\t"
  else if Nat.eqb n 10 then "\n"
  else if Nat.eqb n 13 then "\r"
  else if Nat.ltb n 32 || Nat.eqb n 127 then hex_escape n
  else if Nat.ltb n 127 then String c ""
  else if Nat.leb n 160 || Nat.eqb n 173 then hex_escape n
  else String c "".

Definition py_repr (s : string) : string :=
  let cs := list_ascii_of_string s in
  let quote :=
    if existsb (Ascii.eqb "'") cs && negb (existsb (Ascii.eqb dquote) cs)
    then dquote else "'"%char in
  String quote (String.concat "" (map (repr_char quote) cs) ++ String quote "").

(** Decimal notation of a count, as [%zd] prints it. *)
Fixpoint dec_aux (fuel n : nat) (acc : string) : string :=
  match fuel with
  | O => acc
  | S f =>
      let acc := String (ascii_of_nat (48 + n mod 10)) acc in
      if Nat.ltb n 10 then acc else dec_aux f (n / 10) acc
  end.

Definition dec_string (n : nat) : string := dec_aux (S n) n "".

Definition msg_invalid_literal (s : string) : string :=
  "invalid literal for int() with base 10: " ++ substring 0 200 (py_repr s).

Definition msg_max_str_digits (digits : nat) : string :=
  "Exceeds the limit (" ++ dec_string max_str_digits
  ++ " digits) for integer string conversion: value has " ++ dec_string digits
  ++ " digits; use sys.set_int_max_str_digits() to increase the limit".

Definition py_int (x : pyobj) : result Z :=
  match x with
  | PyInt z => Ok z
  | PyStr s =>
      let buffer := transform_decimal_and_space (list_ascii_of_string s) in
      match long_from_string (c_string buffer) with
      | ParsedValue z =>
          if Nat.eqb (length (c_string buffer)) (length buffer) then Ok z
          else Raise (ValueError (msg_invalid_literal s))
      | SyntaxError => Raise (ValueError (msg_invalid_literal s))
      | TooManyDigits d => Raise (ValueError (msg_max_str_digits d))
      end
  end.

(** [[int(x) for x in xs]]: evaluated left to right, the first failure
    propagates. *)
Fixpoint map_int (xs : list pyobj) : result (list Z) :=
  match xs with
  | [] => Ok []
  | x :: xs' =>
      let! z := py_int x in
      let! zs := map_int xs' in
      Ok (z :: zs)
  end.

(** ** [_get_endpoint] *)

Definition RESOURCE_PROVIDER : string := "Microsoft.AzureImageTestingForLinux".
Definition API_VERSION : string := "2023-08-01-preview".

Definition get_endpoint (segment resource_group subscription_id : string)
  : string :=
  "https://eastus2euap.management.azure.com/subscriptions/" ++ subscription_id
  ++ "/" ++ "resourceGroups/" ++ resource_group ++ "/providers/"
  ++ RESOURCE_PROVIDER ++ "/" ++ segment ++ "?api-version=" ++ API_VERSION.

(** ** [_create_template]

    [location] is accepted and unused, as in the source.  Python's
    truthiness of a list is its non-emptiness. *)

Definition nonempty {A} (l : list A) : bool :=
  match l with [] => false | _ => true end.

Definition create_template (vm_size : option string)
    (test_priorities : list pyobj) (test_cases : list string)
    (location : string) (regions : list string) (concurrency : json)
  : result (list (string * json)) :=
  let template := [("templateTags", JList [])] in
  let! selection :=
    (if nonempty test_priorities then
       let! zs := map_int test_priorities in
       Ok (setitem "casePriority" (JList (map JInt zs)) [])
     else Ok []) in
  let selection :=
    if nonempty test_cases
    then setitem "caseName" (JList (map JStr test_cases)) selection
    else selection in
  let template :=
    if nonempty selection
    then setitem "selections" (JList [JObj selection]) template
    else template in
  let template :=
    setitem "region"
      (JList (map JStr (if nonempty regions then regions else []))) template in
  let template :=
    setitem "vmSize"
      (if truthy vm_size then JList [opt_json vm_size] else JList []) template in
  let template := setitem "concurrency" concurrency template in
  Ok template.

(** ** [make_job_create_request] *)

Definition msg_both : string :=
  "Only one of --vhd-sas-url or --marketplace-image-urn can be used for a given test job.".

Definition msg_neither : string :=
  "One of --vhd-sas-url or --marketplace-image-urn should be passed.".

Definition msg_bad_urn (urn : string) : string :=
  "marketplace_image_urn should be in the format of 'publisher:offer:sku:version', "
  ++ "got " ++ urn.

Definition str_of (o : option string) : string :=
  match o with Some s => s | None => "" end.

Definition make_job_create_request
    (marketplace_image_urn vhd_sas_url : option string)
    (job_name : string) (template_name : option string)
    (resource_group subscription_id : string) (vm_size : option string)
    (test_priorities : list pyobj) (test_cases : list string)
    (location : string) (region : list string)
    (concurrency vm_generation : json) (architecture : option string)
  : result (json * string) :=
  let endpoint :=
    get_endpoint ("jobs/" ++ job_name) resource_group subscription_id in
  let image :=
    [("vhdGeneration", vm_generation); ("architecture", opt_json architecture)] in
  let! image :=
    (if truthy marketplace_image_urn && truthy vhd_sas_url then
       Raise (ValueError msg_both)
     else if truthy marketplace_image_urn then
       let urn := str_of marketplace_image_urn in
       let image := setitem "type" (JStr "marketplace") image in
       let image_parts := py_split ":" urn in
       if negb (Nat.eqb (length image_parts) 4) then
         Raise (ValueError (msg_bad_urn urn))
       else
         match image_parts with
         | [p; o; s; v] =>
             Ok (setitem "version" (JStr v)
                  (setitem "sku" (JStr s)
                    (setitem "offer" (JStr o)
                      (setitem "publisher" (JStr p) image))))
         | _ => Raise (ValueError "not enough values to unpack")
         end
     else if truthy vhd_sas_url then
       let image := setitem "type" (JStr "vhd") image in
       Ok (setitem "url" (JStr (str_of vhd_sas_url)) image)
     else Raise (ValueError msg_neither)) in
  let! template :=
    create_template vm_size test_priorities test_cases location region
      concurrency in
  let payload :=
    JObj [("location", JStr location);
          ("properties",
            JObj [("jobTemplateName", opt_json template_name);
                  ("jobTemplateInstance", JObj template);
                  ("image", JObj image)])] in
  Ok (payload, endpoint).

(** ** The [create_job] command handler

    [ctx.obj] after the group callback has authenticated.  The result is
    the list of requests the handler issues through the session and the
    exception that stops it before it sends any; what follows the PUT
    ([_output_result] and the exceptions it may raise) is left out here
    and modelled by [create_job_cmd] below. *)

Record ctx_obj : Type := {
  session_token : string;
  ctx_resource_group : string;
  ctx_subscription_id : string
}.

Inductive request : Type :=
| HttpPut (url : string) (body : json).

Definition create_job (ctx : ctx_obj) (name : string)
    (marketplace_image_urn vhd_sas_url architecture template_name : option string)
    (vm_generation : json) (vm_size : option string)
    (test_priorities : list pyobj) (test_cases : list string)
    (location : string) (concurrency : json) (region : list string)
  : list request * option exc :=
  match make_job_create_request marketplace_image_urn vhd_sas_url name
          template_name (ctx_resource_group ctx) (ctx_subscription_id ctx)
          vm_size test_priorities test_cases location region concurrency
          vm_generation architecture with
  | Raise e => ([], Some e)
  | Ok (payload, endpoint) => ([HttpPut endpoint payload], None)
  end.

(** ** The HTTP layer and the command line

    The requests the client sends, the responses the server gives (an
    oracle [server] from request to response), what is printed, and the
    exceptions that end a command.  Headers are those the code sets (the
    session's [Authorization] header); [HBearer token] is the f-string
    [f"Bearer {token}"] over the token as decoded from the auth response.
    Response bodies are the JSON values of [json]; [None] stands for a body
    that [resp.json()] cannot decode.  Printing is recorded by what is
    printed ([print(resp.json())] or [json.dumps(resp.json(), indent=2)]),
    not by the rendered text. *)

Inductive http_method : Type := GET | PUT | DELETE | POST.

Inductive hval : Type :=
| HStr (s : string)
| HBearer (token : json).

Inductive req_data : Type :=
| NoBody
| FormData (kv : list (string * string))
| JsonBody (j : json).

Record http_req : Type := mk_req {
  req_method : http_method;
  req_url : string;
  req_headers : list (string * hval);
  req_body : req_data
}.

Record http_resp : Type := mk_resp {
  status_code : Z;
  resp_content : option json
}.

Inductive printed : Type :=
| PrintRepr (j : json)
| PrintDumps (j : json).

Inductive event : Type :=
| Sent (r : http_req)
| Printed (p : printed).

Inductive cli_exc : Type :=
| PyValueError (e : exc)
| HTTPError (status : Z)
| JSONDecodeError
| KeyError (k : string)
| TypeError.

Inductive outcome (A : Type) : Type :=
| Done (a : A)
| Fail (e : cli_exc).
Arguments Done {A} a.
Arguments Fail {A} e.

(** Explicit state passing: the events so far, oldest first. *)
Definition io (A : Type) : Type := list event -> list event * outcome A.

Definition io_ret {A} (a : A) : io A := fun ev => (ev, Done a).

Definition io_raise {A} (e : cli_exc) : io A := fun ev => (ev, Fail e).

Definition io_bind {A B} (m : io A) (k : A -> io B) : io B :=
  fun ev =>
    match m ev with
    | (ev', Done a) => k a ev'
    | (ev', Fail e) => (ev', Fail e)
    end.

Notation "x <-- m ;; k" := (io_bind m (fun x => k))
  (at level 61, m at next level, right associativity).
Notation "m ;;; k" := (io_bind m (fun _ => k))
  (at level 61, right associativity).

(** A pure step that may raise [ValueError]. *)
Definition lift {A} (r : result A) : io A :=
  match r with
  | Ok a => io_ret a
  | Raise e => io_raise (PyValueError e)
  end.

Definition print (p : printed) : io unit :=
  fun ev => (app ev [Printed p], Done tt).

(** [try: m except requests.exceptions.HTTPError: h] *)
Definition try_http {A} (m : io A) (h : Z -> io A) : io A :=
  fun ev =>
    match m ev with
    | (ev', Fail (HTTPError s)) => h s ev'
    | o => o
    end.

Section Client.

Variable server : http_req -> http_resp.

Definition send (r : http_req) : io http_resp :=
  fun ev => (app ev [Sent r], Done (server r)).

(** [resp.json()] *)
Definition resp_json (r : http_resp) : io json :=
  match resp_content r with
  | Some j => io_ret j
  | None => io_raise JSONDecodeError
  end.

(** [resp.raise_for_status()]: 4xx and 5xx raise. *)
Definition is_http_error (s : Z) : bool := (400 <=? s)%Z && (s <? 600)%Z.

Definition raise_for_status (r : http_resp) : io unit :=
  if is_http_error (status_code r) then io_raise (HTTPError (status_code r))
  else io_ret tt.

(** The handler shared by [_output_result] and [auth]:
    [print(resp.json()); raise]. *)
Definition print_and_reraise (r : http_resp) (s : Z) : io unit :=
  j <-- resp_json r ;;
  print (PrintRepr j) ;;;
  io_raise (HTTPError s).

Definition output_result (r : http_resp) : io unit :=
  try_http (raise_for_status r) (print_and_reraise r) ;;;
  j <-- resp_json r ;;
  print (PrintDumps j).

(** [d[k]] on a decoded JSON value: a dict looks the key up, anything else
    is not subscriptable by a string. *)
Definition getitem (j : json) (k : string) : io json :=
  match j with
  | JObj kv =>
      match lookup k kv with
      | Some v => io_ret v
      | None => io_raise (KeyError k)
      end
  | _ => io_raise TypeError
  end.

Definition auth_url (tenant_id : string) : string :=
  "https://login.microsoftonline.com/" ++ tenant_id ++ "/oauth2/token".

Definition auth_data (client_id client_secret : string) : list (string * string) :=
  [("grant_type", "client_credentials"); ("client_id", client_id);
   ("client_secret", client_secret);
   ("resource", "https://management.azure.com/")].

(** [auth]: [subscription_id] is accepted and unused, as in the source. *)
Definition auth (tenant_id subscription_id client_id client_secret : string)
  : io json :=
  resp <-- send (mk_req POST (auth_url tenant_id) []
                   (FormData (auth_data client_id client_secret))) ;;
  try_http (raise_for_status resp) (print_and_reraise resp) ;;;
  resp_json <-- resp_json resp ;;
  getitem resp_json "access_token".

(** [ctx.obj] as the group callback fills it. *)
Record cli_ctx : Type := mk_ctx {
  session_headers : list (string * hval);
  resource_group : string;
  subscription_id : string
}.

Definition session_get (c : cli_ctx) (url : string) : io http_resp :=
  send (mk_req GET url (session_headers c) NoBody).

Definition session_put (c : cli_ctx) (url : string) (j : json) : io http_resp :=
  send (mk_req PUT url (session_headers c) (JsonBody j)).

Definition session_delete (c : cli_ctx) (url : string) : io http_resp :=
  send (mk_req DELETE url (session_headers c) NoBody).

Definition endpoint_of (c : cli_ctx) (segment : string) : string :=
  get_endpoint segment (resource_group c) (subscription_id c).

Definition list_templates (c : cli_ctx) : io unit :=
  resp <-- session_get c (endpoint_of c "jobTemplates") ;; output_result resp.

Definition get_template (c : cli_ctx) (name : string) : io unit :=
  resp <-- session_get c (endpoint_of c ("jobTemplates/" ++ name)) ;;
  output_result resp.

(** The [create_template] command's callback ([create_template] names the
    model of [_create_template] here). *)
Definition create_template_cmd (c : cli_ctx) (name : string)
    (vm_size : option string) (test_priorities test_cases : list string)
    (location : string) (region : list string) (concurrency : json) : io unit :=
  let endpoint := endpoint_of c ("jobTemplates/" ++ name) in
  template <-- lift (create_template vm_size (map PyStr test_priorities)
                       test_cases location region concurrency) ;;
  let payload :=
    JObj [("location", JStr location); ("name", JStr name);
          ("properties", JObj template)] in
  resp <-- session_put c endpoint payload ;;
  output_result resp.

Definition list_jobs (c : cli_ctx) : io unit :=
  resp <-- session_get c (endpoint_of c "jobs") ;; output_result resp.

Definition get_job (c : cli_ctx) (name : string) : io unit :=
  resp <-- session_get c (endpoint_of c ("jobs/" ++ name)) ;;
  output_result resp.

Definition delete_job (c : cli_ctx) (name : string) : io unit :=
  resp <-- session_delete c (endpoint_of c ("jobs/" ++ name)) ;;
  output_result resp.

(** The [create_job] command's callback in this setting: the click
    options' values ([vm_generation] and [concurrency] are ints), the
    session of [ctx.obj], and [_output_result] on the answer. *)
Definition create_job_cmd (c : cli_ctx) (name : string)
    (marketplace_image_urn vhd_sas_url architecture template_name : option string)
    (vm_generation : Z) (vm_size : option string)
    (test_priorities test_cases : list string) (location : string)
    (concurrency : Z) (region : list string) : io unit :=
  pe <-- lift (make_job_create_request marketplace_image_urn vhd_sas_url name
                 template_name (resource_group c) (subscription_id c) vm_size
                 (map PyStr test_priorities) test_cases location region
                 (JInt concurrency) (JInt vm_generation) architecture) ;;
  let '(payload, endpoint) := pe in
  resp <-- session_put c endpoint payload ;;
  output_result resp.

(** The subcommands with the values click parsed for their declared
    options (none for [create_template]'s [concurrency] parameter, which
    has no option). *)
Inductive command : Type :=
| ListTemplates
| GetTemplate (name : string)
| CreateTemplate (name : string) (vm_size : option string)
    (test_priorities test_cases : list string) (location : string)
    (region : list string)
| ListJobs
| GetJob (name : string)
| DeleteJob (name : string)
| CreateJob (name : string)
    (marketplace_image_urn vhd_sas_url architecture template_name : option string)
    (vm_generation : Z) (vm_size : option string)
    (test_priorities test_cases : list string) (location : string)
    (concurrency : Z) (region : list string).

(** [ctx.params]: each declared option's parameter name with its value (a
    string, [None] for an absent optional one, a tuple of strings for a
    [multiple=True] one, an int for an [IntRange] one). *)
Definition strs (l : list string) : json := JList (map JStr l).

Definition ctx_params (cmd : command) : list (string * json) :=
  match cmd with
  | ListTemplates | ListJobs => []
  | GetTemplate name | GetJob name | DeleteJob name => [("name", JStr name)]
  | CreateTemplate name vm ps cs loc region =>
      [("name", JStr name); ("vm_size", opt_json vm);
       ("test_priorities", strs ps); ("test_cases", strs cs);
       ("location", JStr loc); ("region", strs region)]
  | CreateJob name urn vhd arch tname gen vm ps cs loc conc region =>
      [("name", JStr name); ("marketplace_image_urn", opt_json urn);
       ("vhd_sas_url", opt_json vhd); ("architecture", opt_json arch);
       ("vm_generation", JInt gen); ("template_name", opt_json tname);
       ("vm_size", opt_json vm); ("test_priorities", strs ps);
       ("test_cases", strs cs); ("location", JStr loc);
       ("region", strs region); ("concurrency", JInt conc)]
  end.

(** The parameters of each callback after [ctx], as its [def] lists
    them. *)
Definition callback_params (cmd : command) : list string :=
  match cmd with
  | ListTemplates | ListJobs => []
  | GetTemplate _ | GetJob _ | DeleteJob _ => ["name"]
  | CreateTemplate _ _ _ _ _ _ =>
      ["name"; "vm_size"; "test_priorities"; "test_cases"; "location";
       "region"; "concurrency"]
  | CreateJob _ _ _ _ _ _ _ _ _ _ _ _ =>
      ["name"; "marketplace_image_urn"; "vhd_sas_url"; "architecture";
       "template_name"; "vm_generation"; "vm_size"; "test_priorities";
       "test_cases"; "location"; "concurrency"; "region"]
  end.

(** Python's binding of [f(ctx, **kwargs)] for parameters without
    defaults: a keyword naming no parameter raises [TypeError], so does a
    parameter that no keyword names; otherwise the body runs on the
    values in parameter order. *)
Fixpoint bind_params (params : list string) (kwargs : list (string * json))
  : option (list json) :=
  match params with
  | [] => Some []
  | p :: ps =>
      match lookup p kwargs, bind_params ps kwargs with
      | Some v, Some vs => Some (v :: vs)
      | _, _ => None
      end
  end.

Definition py_call (params : list string) (kwargs : list (string * json))
    (body : list json -> io unit) : io unit :=
  if forallb (fun k => existsb (String.eqb k) params) (map fst kwargs) then
    match bind_params params kwargs with
    | Some args => body args
    | None => io_raise TypeError
    end
  else io_raise TypeError.

(** The callbacks' bodies read their arguments back as the types click
    produced them; a value of another shape (which click does not pass)
    stops the body with [TypeError]. *)
Definition as_str (j : json) : option string :=
  match j with JStr s => Some s | _ => None end.

Definition as_opt_str (j : json) : option (option string) :=
  match j with JNull => Some None | JStr s => Some (Some s) | _ => None end.

Fixpoint as_str_list (l : list json) : option (list string) :=
  match l with
  | [] => Some []
  | j :: l' =>
      match as_str j, as_str_list l' with
      | Some s, Some ss => Some (s :: ss)
      | _, _ => None
      end
  end.

Definition as_strs (j : json) : option (list string) :=
  match j with JList l => as_str_list l | _ => None end.

Definition as_int (j : json) : option Z :=
  match j with JInt z => Some z | _ => None end.

Definition with_args (o : option (io unit)) : io unit :=
  match o with Some m => m | None => io_raise TypeError end.

Notation "x <- o ;? k" := (match o with Some x => k | None => None end)
  (at level 61, o at next level, right associativity).

Definition callback (c : cli_ctx) (cmd : command) (args : list json) : io unit :=
  match cmd, args with
  | ListTemplates, [] => list_templates c
  | GetTemplate _, [name] => with_args (n <- as_str name ;? Some (get_template c n))
  | CreateTemplate _ _ _ _ _ _, [name; vm_size; ps; cs; location; region; concurrency] =>
      with_args (
        n <- as_str name ;? vm <- as_opt_str vm_size ;? ps <- as_strs ps ;?
        cs <- as_strs cs ;? loc <- as_str location ;? rs <- as_strs region ;?
        Some (create_template_cmd c n vm ps cs loc rs concurrency))
  | ListJobs, [] => list_jobs c
  | GetJob _, [name] => with_args (n <- as_str name ;? Some (get_job c n))
  | DeleteJob _, [name] => with_args (n <- as_str name ;? Some (delete_job c n))
  | CreateJob _ _ _ _ _ _ _ _ _ _ _ _,
      [name; urn; vhd; arch; tname; gen; vm_size; ps; cs; location; conc; region] =>
      with_args (
        n <- as_str name ;? u <- as_opt_str urn ;? v <- as_opt_str vhd ;?
        a <- as_opt_str arch ;? t <- as_opt_str tname ;? g <- as_int gen ;?
        vm <- as_opt_str vm_size ;? ps <- as_strs ps ;? cs <- as_strs cs ;?
        loc <- as_str location ;? cc <- as_int conc ;? rs <- as_strs region ;?
        Some (create_job_cmd c n u v a t g vm ps cs loc cc rs))
  | _, _ => io_raise TypeError
  end.

(** click invokes the chosen subcommand as [callback(ctx, **ctx.params)]. *)
Definition run_command (c : cli_ctx) (cmd : command) : io unit :=
  py_call (callback_params cmd) (ctx_params cmd) (callback c cmd).

(** The group callback [cli] followed by the chosen subcommand. *)
Definition cli (resource_group client_id client_secret subscription_id
    tenant_id : string) (cmd : command) : io unit :=
  token <-- auth tenant_id subscription_id client_id client_secret ;;
  let c := mk_ctx [("Authorization", HBearer token)] resource_group
             subscription_id in
  run_command c cmd.

End Client.

(** ** Sanity examples *)

Example py_split_ex : py_split ":" "a:b::c" = ["a"; "b"; ""; "c"].
Proof. reflexivity. Qed.

Example py_int_ex :
  py_int (PyStr " -1_0 ") = Ok (-10)%Z /\ py_int (PyStr "1__0") =
  Raise (ValueError "invalid literal for int() with base 10: '1__0'").
Proof. split; reflexivity. Qed.

Example py_int_repr_ex :
  py_int (PyStr "it's") = Raise (ValueError (msg_invalid_literal "it's")) /\
  msg_invalid_literal "it's"
  = "invalid literal for int() with base 10: "
    ++ String dquote ("it's" ++ String dquote "") /\
  msg_invalid_literal (String (ascii_of_nat 10) "")
  = "invalid literal for int() with base 10: '\n'" /\
  py_int (PyStr (String (ascii_of_nat 28) "7"))
  = Raise (ValueError (msg_invalid_literal (String (ascii_of_nat 28) "7"))) /\
  py_int (PyStr (String (ascii_of_nat 160) "7")) = Ok 7%Z /\
  msg_max_str_digits 4301
  = "Exceeds the limit (4300 digits) for integer string conversion: value has 4301 digits; use sys.set_int_max_str_digits() to increase the limit".
Proof. repeat split; reflexivity. Qed.

Example urn_ex :
  make_job_create_request (Some "Canonical:ubuntu:22_04-lts:latest") None "j"
    None "g" "s" None [] [] "l" [] (JInt 0) (JInt 2) (Some "x64")
  = Ok (JObj [("location", JStr "l");
              ("properties",
                JObj [("jobTemplateName", JNull);
                      ("jobTemplateInstance",
                        JObj [("templateTags", JList []); ("region", JList []);
                              ("vmSize", JList []); ("concurrency", JInt 0)]);
                      ("image",
                        JObj [("vhdGeneration", JInt 2);
                              ("architecture", JStr "x64");
                              ("type", JStr "marketplace");
                              ("publisher", JStr "Canonical");
                              ("offer", JStr "ubuntu");
                              ("sku", JStr "22_04-lts");
                              ("version", JStr "latest")])])],
        get_endpoint "jobs/j" "g" "s").
Proof. reflexivity. Qed.

(** ** Properties of [str.split] *)

Lemma py_split_not_nil (sep : ascii) (s : string) : py_split sep s <> [].
Proof.
  induction s as [|c rest IH]; simpl; [discriminate|].
  destruct (py_split sep rest) as [|hd tl]; [discriminate|].
  destruct (Ascii.eqb c sep); discriminate.
Qed.

Lemma py_join_split (sep : ascii) (s : string) :
  py_join sep (py_split sep s) = s.
Proof.
  induction s as [|c rest IH]; simpl; [reflexivity|].
  pose proof (py_split_not_nil sep rest) as Hne.
  destruct (py_split sep rest) as [|hd tl]; [congruence|].
  destruct (Ascii.eqb_spec c sep) as [->|Hc].
  - rewrite <- IH. reflexivity.
  - destruct tl as [|t tl']; simpl in *; rewrite <- IH; reflexivity.
Qed.

Lemma py_split_no_sep (sep : ascii) (s : string) :
  Forall (fun p => contains_char sep p = false) (py_split sep s).
Proof.
  induction s as [|c rest IH]; simpl; [repeat constructor|].
  destruct (py_split sep rest) as [|hd tl]; [repeat constructor|].
  inversion IH as [|? ? Hhd Htl]; subst.
  destruct (Ascii.eqb_spec c sep) as [->|Hc].
  - repeat constructor; assumption.
  - constructor; [|assumption].
    unfold contains_char in *; simpl.
    destruct (Ascii.eqb_spec c sep); [contradiction|exact Hhd].
Qed.

(** ** Messages raised while building the template *)

Definition int_error (e : exc) : Prop := exists x, py_int x = Raise e.

Lemma map_int_raise (xs : list pyobj) (e : exc) :
  map_int xs = Raise e -> int_error e.
Proof.
  induction xs as [|x xs IH]; simpl; [discriminate|].
  destruct (py_int x) eqn:Hx; simpl.
  - destruct (map_int xs); simpl; [discriminate|]. intros [= ->]. now apply IH.
  - intros [= <-]. now exists x.
Qed.

Lemma create_template_raise vm ps cs loc rs conc e :
  create_template vm ps cs loc rs conc = Raise e -> int_error e.
Proof.
  unfold create_template.
  destruct (nonempty ps); simpl; [|discriminate].
  destruct (map_int ps) eqn:Hm; simpl; [discriminate|].
  intros [= ->]. now apply (map_int_raise ps).
Qed.

(** The two messages [int] raises. *)
Lemma py_int_raise_msg (x : pyobj) (e : exc) :
  py_int x = Raise e ->
  exists s, e = ValueError (msg_invalid_literal s) \/
            exists d, e = ValueError (msg_max_str_digits d).
Proof.
  destruct x as [z|s]; simpl; [discriminate|].
  destruct (long_from_string _); [destruct (Nat.eqb _ _)| |];
    try discriminate; intros [= <-]; exists s; eauto.
Qed.

Lemma msg_bad_urn_not_int (u : string) :
  ~ int_error (ValueError (msg_bad_urn u)).
Proof.
  intros [x Hx]. destruct (py_int_raise_msg x _ Hx) as [s [H|[d H]]];
    discriminate H.
Qed.

Lemma msg_bad_urn_neq_both (u : string) : msg_bad_urn u <> msg_both.
Proof. discriminate. Qed.

Lemma msg_bad_urn_neq_neither (u : string) : msg_bad_urn u <> msg_neither.
Proof. discriminate. Qed.

(** Once the image dict is built, the only exceptions left are those of
    [int] inside [_create_template]. *)
Lemma bind_template_raise (image : list (string * json)) vm ps cs loc rs conc
    (mk : list (string * json) -> list (string * json) -> result (json * string))
    e :
  bind (Ok image) (fun image =>
    bind (create_template vm ps cs loc rs conc) (fun t => mk image t))
    = Raise e ->
  (forall i t, mk i t <> Raise e) -> int_error e.
Proof.
  simpl. destruct (create_template vm ps cs loc rs conc) eqn:Ht; simpl.
  - intros H Hmk. exfalso. exact (Hmk image a H).
  - intros [= ->] _. now apply (create_template_raise vm ps cs loc rs conc).
Qed.

(** ** C1 *)

(** C1: when both image sources are given (truthy) or neither is,
    [make_job_create_request] raises [ValueError] (the "Only one of" message
    when both are given, the "One of" message when neither is), and the
    [create_job] handler then issues no request at all. *)
Theorem make_job_create_request_both_or_neither_fails
    (ctx : ctx_obj) urn vhd job tname rg sub vm ps cs loc rs conc gen arch :
  truthy urn = truthy vhd ->
  make_job_create_request urn vhd job tname rg sub vm ps cs loc rs conc gen arch
    = Raise (ValueError (if truthy urn then msg_both else msg_neither)) /\
  create_job ctx job urn vhd arch tname gen vm ps cs loc conc rs
    = ([], Some (ValueError (if truthy urn then msg_both else msg_neither))).
Proof.
  intros H. unfold create_job, make_job_create_request.
  rewrite <- H. destruct (truthy urn); simpl; split; reflexivity.
Qed.

Definition ctx_test : ctx_obj :=
  {| session_token := "token"; ctx_resource_group := "testgroup";
     ctx_subscription_id := "testsub" |}.

Lemma make_job_create_request_both_or_neither_fails_witness :
  truthy (Some "Canonical:ubuntu:jammy:latest") = truthy (Some "http://foobar") /\
  (make_job_create_request (Some "Canonical:ubuntu:jammy:latest")
     (Some "http://foobar") "testjob" None "testgroup" "testsub" None [] []
     "westus3" ["westeurope"] (JInt 0) (JInt 2) (Some "x64")
   = Raise (ValueError msg_both) /\
   create_job ctx_test "testjob" (Some "Canonical:ubuntu:jammy:latest")
     (Some "http://foobar") (Some "x64") None (JInt 2) None [] [] "westus3"
     (JInt 0) ["westeurope"]
   = ([], Some (ValueError msg_both))).
Proof.
  split; [reflexivity|].
  exact (make_job_create_request_both_or_neither_fails ctx_test
           (Some "Canonical:ubuntu:jammy:latest") (Some "http://foobar")
           "testjob" None "testgroup" "testsub" None [] [] "westus3"
           ["westeurope"] (JInt 0) (JInt 2) (Some "x64") eq_refl).
Defined.

(** ** C2 *)

(** C2: with no (falsy) VHD URL and a non-empty marketplace URN that does
    not split on ':' into exactly 4 parts, [make_job_create_request] raises
    [ValueError] whose message ends with the URN verbatim. *)
Theorem make_job_create_request_malformed_urn
    u vhd job tname rg sub vm ps cs loc rs conc gen arch :
  u <> "" -> truthy vhd = false -> length (py_split ":" u) <> 4 ->
  make_job_create_request (Some u) vhd job tname rg sub vm ps cs loc rs conc
    gen arch = Raise (ValueError (msg_bad_urn u)) /\
  exists pre, msg_bad_urn u = pre ++ u.
Proof.
  intros Hu Hv Hlen. split.
  - destruct u as [|c u']; [contradiction|].
    unfold make_job_create_request. rewrite Hv.
    cbn [truthy andb str_of].
    apply Nat.eqb_neq in Hlen. rewrite Hlen. reflexivity.
  - exists ("marketplace_image_urn should be in the format of "
            ++ "'publisher:offer:sku:version', got ").
    reflexivity.
Qed.

Lemma make_job_create_request_malformed_urn_witness :
  ("Canonical:ubuntu:jammy" <> "" /\ truthy None = false /\
   length (py_split ":" "Canonical:ubuntu:jammy") <> 4) /\
  (make_job_create_request (Some "Canonical:ubuntu:jammy") None "testjob" None
     "testgroup" "testsub" None [] [] "westus3" ["westeurope"] (JInt 0)
     (JInt 2) (Some "x64")
   = Raise (ValueError (msg_bad_urn "Canonical:ubuntu:jammy")) /\
   exists pre, msg_bad_urn "Canonical:ubuntu:jammy" = pre ++ "Canonical:ubuntu:jammy").
Proof.
  split; [split; [discriminate| split; [reflexivity| simpl; lia]]|].
  apply (make_job_create_request_malformed_urn "Canonical:ubuntu:jammy" None
           "testjob" None "testgroup" "testsub" None [] [] "westus3"
           ["westeurope"] (JInt 0) (JInt 2) (Some "x64")).
  - discriminate.
  - reflexivity.
  - simpl. lia.
Defined.

(** ** C9 *)

(** C9: when both image sources are given, the "Only one of" error is
    raised whatever the URN looks like (malformed or not); conversely the
    malformed-URN error is only ever raised with a falsy VHD URL (and a
    truthy URN that does not split into 4 parts). *)
Theorem make_job_create_request_exclusivity_precedes_urn_check
    urn vhd job tname rg sub vm ps cs loc rs conc gen arch :
  (truthy urn = true -> truthy vhd = true ->
   make_job_create_request urn vhd job tname rg sub vm ps cs loc rs conc gen
     arch = Raise (ValueError msg_both)) /\
  (forall u,
   make_job_create_request urn vhd job tname rg sub vm ps cs loc rs conc gen
     arch = Raise (ValueError (msg_bad_urn u)) ->
   truthy vhd = false /\ truthy urn = true /\
   length (py_split ":" (str_of urn)) <> 4).
Proof.
  split.
  - intros Hu Hv. unfold make_job_create_request. rewrite Hu, Hv. reflexivity.
  - intros u. unfold make_job_create_request.
    destruct (truthy urn), (truthy vhd); cbn [andb negb].
    + intros H. discriminate H.
    + destruct (Nat.eqb_spec (length (py_split ":" (str_of urn))) 4)
        as [Hl|Hl]; cbn [negb].
      * destruct (py_split ":" (str_of urn)) as [|p [|o [|s [|v [|x l]]]]];
          simpl in Hl; try discriminate Hl.
        intros H. exfalso.
        apply (msg_bad_urn_not_int u).
        eapply bind_template_raise; [exact H|]. discriminate.
      * intros _. auto.
    + intros H. exfalso. apply (msg_bad_urn_not_int u).
      eapply bind_template_raise; [exact H|]. discriminate.
    + intros H. discriminate H.
Qed.

Lemma make_job_create_request_exclusivity_precedes_urn_check_witness :
  make_job_create_request (Some "not-a-urn") (Some "http://foobar") "testjob"
    None "testgroup" "testsub" None [] [] "westus3" ["westeurope"] (JInt 0)
    (JInt 2) (Some "x64") = Raise (ValueError msg_both).
Proof.
  apply (proj1 (make_job_create_request_exclusivity_precedes_urn_check
                  (Some "not-a-urn") (Some "http://foobar") "testjob" None
                  "testgroup" "testsub" None [] [] "westus3" ["westeurope"]
                  (JInt 0) (JInt 2) (Some "x64"))); reflexivity.
Defined.

(** ** C10 *)

(** C10: a marketplace URN that splits on ':' into exactly 4 parts gives
    publisher, offer, sku and version fields free of ':', and joining them
    with ':' in order gives back the URN. *)
Theorem marketplace_urn_split_roundtrip (urn : string) :
  length (py_split ":" urn) = 4 ->
  exists p o s v,
    py_split ":" urn = [p; o; s; v] /\
    Forall (fun x => contains_char ":" x = false) [p; o; s; v] /\
    p ++ ":" ++ o ++ ":" ++ s ++ ":" ++ v = urn.
Proof.
  intros Hl.
  pose proof (py_split_no_sep ":" urn) as Hno.
  pose proof (py_join_split ":" urn) as Hj.
  destruct (py_split ":" urn) as [|p [|o [|s [|v [|x l]]]]];
    simpl in Hl; try discriminate Hl.
  exists p, o, s, v. split; [reflexivity|]. split; [exact Hno|].
  rewrite <- Hj. reflexivity.
Qed.

Lemma marketplace_urn_split_roundtrip_witness :
  length (py_split ":" "Canonical:ubuntu:22_04-lts:latest") = 4 /\
  exists p o s v,
    py_split ":" "Canonical:ubuntu:22_04-lts:latest" = [p; o; s; v] /\
    Forall (fun x => contains_char ":" x = false) [p; o; s; v] /\
    p ++ ":" ++ o ++ ":" ++ s ++ ":" ++ v = "Canonical:ubuntu:22_04-lts:latest".
Proof.
  split; [reflexivity|].
  apply marketplace_urn_split_roundtrip. reflexivity.
Defined.

(** ** [int] on digit strings, and [_create_template] on them *)

Definition numeric_str (s : string) : bool :=
  nonempty (list_ascii_of_string s) && forallb is_digit (list_ascii_of_string s).

Lemma digit_facts (c : ascii) :
  is_digit c = true ->
  is_space c = false /\ is_ascii_char c = true /\
  Nat.eqb (nat_of_ascii c) 0 = false /\
  Ascii.eqb c "+" = false /\ Ascii.eqb c "-" = false /\ Ascii.eqb c "_" = false.
Proof.
  unfold is_digit, is_space, is_ascii_char. intros H.
  apply andb_true_iff in H as [H1 H2]. apply Nat.leb_le in H1, H2.
  repeat split.
  - apply orb_false_iff; split.
    + apply andb_false_iff; right; apply Nat.leb_gt; lia.
    + apply Nat.eqb_neq; lia.
  - apply Nat.ltb_lt; lia.
  - apply Nat.eqb_neq; lia.
  - destruct (Ascii.eqb_spec c "+") as [->|]; [cbn in H1; lia|reflexivity].
  - destruct (Ascii.eqb_spec c "-") as [->|]; [cbn in H1; lia|reflexivity].
  - destruct (Ascii.eqb_spec c "_") as [->|]; [cbn in H2; lia|reflexivity].
Qed.

Lemma c_string_digits (l : list ascii) :
  forallb is_digit l = true -> c_string l = l.
Proof.
  induction l as [|c l IH]; simpl; [reflexivity|].
  intros H. apply andb_true_iff in H as [Hc Hl].
  destruct (digit_facts c Hc) as [_ [_ [H0 _]]]. rewrite H0, IH; auto.
Qed.

Lemma transform_digits (l : list ascii) :
  forallb is_digit l = true -> transform_decimal_and_space l = l.
Proof.
  intros H. unfold transform_decimal_and_space.
  replace (forallb is_ascii_char l) with true; [reflexivity|].
  symmetry. apply forallb_forall. intros c Hc.
  rewrite forallb_forall in H. apply (digit_facts c (H c Hc)).
Qed.

Lemma scan_digits_all (cs : list ascii) (d : nat) (acc : Z) :
  forallb is_digit cs = true ->
  exists v, scan_digits cs false d acc = Some (d + length cs, v, false, []).
Proof.
  revert d acc. induction cs as [|c cs IH]; intros d acc; simpl.
  - intros _. exists acc. rewrite Nat.add_0_r. reflexivity.
  - intros H. apply andb_true_iff in H as [Hc Hcs]. rewrite Hc.
    destruct (IH (S d) (acc * 10 + digit_val c)%Z Hcs) as [v Hv].
    exists v. rewrite Hv, Nat.add_succ_r. reflexivity.
Qed.

Lemma length_list_ascii_of_string (s : string) :
  length (list_ascii_of_string s) = String.length s.
Proof. induction s as [|c s IH]; simpl; congruence. Qed.

(** [int] of a digit string returns a value when it has at most
    [max_str_digits] digits and raises the limit error otherwise. *)
Lemma py_int_digits (s : string) :
  numeric_str s = true ->
  (Nat.leb (String.length s) max_str_digits = true ->
   exists z, py_int (PyStr s) = Ok z) /\
  (Nat.ltb max_str_digits (String.length s) = true ->
   py_int (PyStr s) = Raise (ValueError (msg_max_str_digits (String.length s)))).
Proof.
  rewrite <- length_list_ascii_of_string. unfold numeric_str, py_int.
  destruct (list_ascii_of_string s) as [|c cs]; [discriminate|].
  intros H. apply andb_true_iff in H as [_ Hd].
  rewrite (transform_digits _ Hd), (c_string_digits _ Hd).
  simpl in Hd. apply andb_true_iff in Hd as [Hc Hcs].
  destruct (digit_facts c Hc) as [Hsp [_ [_ [Hp [Hm Hu]]]]].
  destruct (scan_digits_all (c :: cs) 0 0%Z) as [v Hv];
    [simpl; rewrite Hc, Hcs; reflexivity|].
  unfold long_from_string. cbn [drop_space]. rewrite Hsp.
  cbv beta iota zeta. rewrite Hp, Hm. cbv beta iota zeta. rewrite Hu.
  rewrite Hv. cbv beta iota zeta. rewrite Nat.add_0_l.
  split.
  - intros Hle. apply Nat.leb_le in Hle.
    replace (Nat.ltb max_str_digits (length (c :: cs))) with false
      by (symmetry; apply Nat.ltb_ge; exact Hle).
    cbn [length Nat.eqb drop_space]. rewrite Nat.eqb_refl.
    eexists; reflexivity.
  - intros Hlt. rewrite Hlt. reflexivity.
Qed.

Lemma map_int_all_ok (ps : list pyobj) :
  (forall p, In p ps -> exists z, py_int p = Ok z) ->
  exists zs, map_int ps = Ok zs.
Proof.
  induction ps as [|p ps IH]; simpl; intros H; [now exists []|].
  destruct (H p (or_introl eq_refl)) as [z Hz]. rewrite Hz. simpl.
  destruct IH as [zs Hzs]; [intros q Hq; apply H; now right|].
  rewrite Hzs. now exists (z :: zs).
Qed.

Lemma map_int_ok_spec (ps : list pyobj) (zs : list Z) :
  map_int ps = Ok zs -> Forall2 (fun p z => py_int p = Ok z) ps zs.
Proof.
  revert zs. induction ps as [|p ps IH]; simpl; intros zs.
  - intros [= <-]. constructor.
  - destruct (py_int p) eqn:Hp; simpl; [|discriminate].
    destruct (map_int ps) eqn:Hm; simpl; [|discriminate].
    intros [= <-]. constructor; [assumption|]. now apply IH.
Qed.

Lemma create_template_all_ok vm ps cs loc rs conc :
  (forall p, In p ps -> exists z, py_int p = Ok z) ->
  exists t, create_template vm ps cs loc rs conc = Ok t.
Proof.
  intros H. destruct (map_int_all_ok ps H) as [zs Hzs].
  unfold create_template.
  destruct (nonempty ps); simpl; [rewrite Hzs; simpl|]; eexists; reflexivity.
Qed.

Lemma map_int_first_bad (pre post : list pyobj) (x : pyobj) (e : exc) :
  (forall p, In p pre -> exists z, py_int p = Ok z) ->
  py_int x = Raise e ->
  map_int (app pre (x :: post)) = Raise e.
Proof.
  intros Hpre Hx. induction pre as [|p pre IH]; simpl.
  - rewrite Hx. reflexivity.
  - destruct (Hpre p (or_introl eq_refl)) as [z Hz]. rewrite Hz. simpl.
    rewrite IH; [reflexivity|]. intros q Hq. apply Hpre. now right.
Qed.

(** ** C8 *)

(** A priority of 4301 digits. *)
Definition long_priority : string :=
  string_of_list_ascii (repeat "1"%char 4301).

(** C8 fails as stated: [int] refuses digit strings longer than
    [max_str_digits] (4300), so [_create_template] raises [ValueError] on
    the numeric-string priority [long_priority]. *)
Lemma create_template_long_priority :
  numeric_str long_priority = true /\
  create_template None (map PyStr [long_priority]) [] "westus3" ["westeurope"]
    (JInt 0) = Raise (ValueError (msg_max_str_digits 4301)) /\
  forall t, create_template None (map PyStr [long_priority]) [] "westus3"
              ["westeurope"] (JInt 0) <> Ok t.
Proof.
  assert (H : create_template None (map PyStr [long_priority]) [] "westus3"
                ["westeurope"] (JInt 0)
              = Raise (ValueError (msg_max_str_digits 4301)))
    by (vm_compute; reflexivity).
  split; [vm_compute; reflexivity|]. split; [exact H|].
  intros t. rewrite H. discriminate.
Qed.

(** C8 (amended): with priorities that are non-empty strings of decimal
    digits (any vm size, test cases, location, regions and integer
    concurrency), [_create_template] returns a template when every
    priority has at most 4300 digits; otherwise it raises the
    [int_max_str_digits] [ValueError] for the first priority with more. *)
Theorem create_template_digit_priorities (vm : option string) (ps : list string)
    (cs : list string) (loc : string) (rs : list string) (n : Z) :
  forallb numeric_str ps = true ->
  (forallb (fun s => Nat.leb (String.length s) max_str_digits) ps = true ->
   exists t, create_template vm (map PyStr ps) cs loc rs (JInt n) = Ok t) /\
  (forall pre s post,
   ps = app pre (s :: post) ->
   forallb (fun s => Nat.leb (String.length s) max_str_digits) pre = true ->
   Nat.ltb max_str_digits (String.length s) = true ->
   create_template vm (map PyStr ps) cs loc rs (JInt n)
   = Raise (ValueError (msg_max_str_digits (String.length s)))).
Proof.
  intros H. rewrite forallb_forall in H. split.
  - intros Hl. apply create_template_all_ok.
    intros p Hp. apply in_map_iff in Hp as [s [<- Hs]].
    rewrite forallb_forall in Hl.
    exact (proj1 (py_int_digits s (H s Hs)) (Hl s Hs)).
  - intros pre s post -> Hpre Hs.
    assert (Hpre' : forall p, In p (map PyStr pre) -> exists z, py_int p = Ok z).
    { intros p Hp. apply in_map_iff in Hp as [q [<- Hq]].
      rewrite forallb_forall in Hpre.
      apply (proj1 (py_int_digits q (H q (in_or_app _ _ _ (or_introl Hq))))).
      exact (Hpre q Hq). }
    unfold create_template. rewrite map_app. cbn [map].
    assert (Hne : nonempty (app (map PyStr pre) (PyStr s :: map PyStr post)) = true)
      by (destruct pre; reflexivity).
    rewrite Hne.
    assert (Hsn : numeric_str s = true)
      by (apply H; apply in_or_app; right; left; reflexivity).
    rewrite (map_int_first_bad _ _ _ _ Hpre' (proj2 (py_int_digits s Hsn) Hs)).
    reflexivity.
Qed.

Lemma create_template_digit_priorities_witness :
  (forallb numeric_str ["1"; "20"] = true /\
   forallb (fun s => Nat.leb (String.length s) max_str_digits) ["1"; "20"] = true /\
   exists t, create_template (Some "Standard_D2s_v3") (map PyStr ["1"; "20"])
               ["smoke_test"] "westus3" ["westeurope"] (JInt 2) = Ok t) /\
  (forallb numeric_str ["1"; long_priority; "2"] = true /\
   Nat.ltb max_str_digits (String.length long_priority) = true /\
   create_template None (map PyStr ["1"; long_priority; "2"]) [] "westus3"
     ["westeurope"] (JInt 0)
   = Raise (ValueError (msg_max_str_digits (String.length long_priority)))).
Proof.
  split.
  - split; [reflexivity|]. split; [reflexivity|].
    apply (proj1 (create_template_digit_priorities (Some "Standard_D2s_v3")
                    ["1"; "20"] ["smoke_test"] "westus3" ["westeurope"] 2
                    eq_refl)).
    reflexivity.
  - assert (Hn : forallb numeric_str ["1"; long_priority; "2"] = true)
      by (vm_compute; reflexivity).
    assert (Hl : Nat.ltb max_str_digits (String.length long_priority) = true)
      by (vm_compute; reflexivity).
    split; [exact Hn|]. split; [exact Hl|].
    apply (proj2 (create_template_digit_priorities None
                    ["1"; long_priority; "2"] [] "westus3" ["westeurope"] 0 Hn)
             ["1"] long_priority ["2"] eq_refl); [reflexivity|exact Hl].
Defined.

(** ** Shape of the template built by [_create_template] *)

Definition selection_of (ps : list pyobj) (cs : list string) (zs : list Z)
  : list (string * json) :=
  ((if nonempty ps then [("casePriority", JList (map JInt zs))] else [])
   ++ (if nonempty cs then [("caseName", JList (map JStr cs))] else []))%list.

Definition vm_size_field (vm : option string) : json :=
  if truthy vm then JList [opt_json vm] else JList [].

Lemma create_template_shape vm ps cs loc rs conc t :
  create_template vm ps cs loc rs conc = Ok t ->
  exists zs, map_int ps = Ok zs /\
    t = ([("templateTags", JList [])]
         ++ (if nonempty (selection_of ps cs zs)
             then [("selections", JList [JObj (selection_of ps cs zs)])]
             else [])
         ++ [("region", JList (map JStr rs)); ("vmSize", vm_size_field vm);
             ("concurrency", conc)])%list.
Proof.
  unfold create_template.
  destruct ps as [|p ps'].
  - simpl. intros [= <-]. exists []. split; [reflexivity|].
    destruct cs, rs; reflexivity.
  - cbn [nonempty]. destruct (map_int (p :: ps')) as [zs|e] eqn:Hm;
      simpl; [|discriminate].
    intros [= <-]. exists zs. split; [reflexivity|].
    destruct cs, rs; reflexivity.
Qed.

Fixpoint no_null (j : json) : bool :=
  match j with
  | JNull => false
  | JInt _ | JStr _ => true
  | JList l => forallb no_null l
  | JObj kv => forallb (fun kv => no_null (snd kv)) kv
  end.

Lemma no_null_map_str (l : list string) : forallb no_null (map JStr l) = true.
Proof. induction l; simpl; auto. Qed.

Lemma no_null_map_int (l : list Z) : forallb no_null (map JInt l) = true.
Proof. induction l; simpl; auto. Qed.

(** ** C5 *)

(** C5: a template returned by [_create_template] has a "selections" key
    exactly when priorities or test cases are given; it is then a
    one-element list holding a dict with "casePriority" (the priorities
    through [int], in order) exactly when priorities are given and
    "caseName" (the test cases as given) exactly when test cases are given.
    With priorities [1, 2] and no test cases the selections are
    [[{casePriority: [1, 2]}]]; with neither there is no "selections" key. *)
Theorem create_template_selections :
  (forall vm ps cs loc rs conc t,
    create_template vm ps cs loc rs conc = Ok t ->
    has_key "selections" t = (nonempty ps || nonempty cs) /\
    (forall v, lookup "selections" t = Some v ->
       exists sel, v = JList [JObj sel] /\
         has_key "casePriority" sel = nonempty ps /\
         has_key "caseName" sel = nonempty cs /\
         (forall w, lookup "casePriority" sel = Some w ->
            exists zs, w = JList (map JInt zs) /\
              Forall2 (fun p z => py_int p = Ok z) ps zs) /\
         (forall w, lookup "caseName" sel = Some w ->
            w = JList (map JStr cs)))) /\
  (forall vm loc rs conc, exists t,
    create_template vm [PyInt 1; PyInt 2] [] loc rs conc = Ok t /\
    lookup "selections" t = Some (JList [JObj [("casePriority", JList [JInt 1; JInt 2])]])) /\
  (forall vm loc rs conc, exists t,
    create_template vm [] [] loc rs conc = Ok t /\
    has_key "selections" t = false).
Proof.
  split; [|split].
  - intros vm ps cs loc rs conc t Ht.
    destruct (create_template_shape _ _ _ _ _ _ _ Ht) as [zs [Hzs ->]].
    apply map_int_ok_spec in Hzs.
    destruct ps as [|p ps'], cs as [|c cs']; simpl; (split; [reflexivity|]);
      intros v Hv; try discriminate Hv; injection Hv as <-;
      eexists; (split; [reflexivity|]); simpl;
      (split; [reflexivity|]); (split; [reflexivity|]);
      split; intros w Hw; try discriminate Hw; injection Hw as <-;
      eauto.
  - intros vm loc rs conc. eexists. split; [reflexivity|].
    destruct rs; reflexivity.
  - intros vm loc rs conc. eexists. split; [reflexivity|].
    destruct rs; reflexivity.
Qed.

(** ** C6 *)

(** C6: a template returned by [_create_template] with an integer
    concurrency always has "region" (the given regions, [] when none) and
    "vmSize" ([vm_size] for a non-empty vm size, [] otherwise), and no
    value anywhere in it is [None]. *)
Theorem create_template_region_vm_size vm ps cs loc rs (n : Z) t :
  create_template vm ps cs loc rs (JInt n) = Ok t ->
  lookup "region" t = Some (JList (map JStr rs)) /\
  lookup "vmSize" t =
    Some (if truthy vm then JList [JStr (str_of vm)] else JList []) /\
  no_null (JObj t) = true.
Proof.
  intros Ht.
  destruct (create_template_shape _ _ _ _ _ _ _ Ht) as [zs [_ ->]].
  assert (Hvm : vm_size_field vm =
                if truthy vm then JList [JStr (str_of vm)] else JList [])
    by (destruct vm as [[|c s]|]; reflexivity).
  assert (Hnn : no_null (vm_size_field vm) = true)
    by (destruct vm as [[|c s]|]; reflexivity).
  destruct ps as [|p ps'], cs as [|c cs']; simpl;
    (split; [reflexivity|]); (split; [now rewrite Hvm|]);
    rewrite ?no_null_map_str, ?no_null_map_int, Hnn; reflexivity.
Qed.

Lemma create_template_region_vm_size_witness :
  create_template (Some "testsize") [PyStr "1"] [] "testlocation"
    ["testregion"] (JInt 3) =
    Ok [("templateTags", JList []);
        ("selections", JList [JObj [("casePriority", JList [JInt 1])]]);
        ("region", JList [JStr "testregion"]);
        ("vmSize", JList [JStr "testsize"]); ("concurrency", JInt 3)] /\
  (lookup "region" [("templateTags", JList []);
        ("selections", JList [JObj [("casePriority", JList [JInt 1])]]);
        ("region", JList [JStr "testregion"]);
        ("vmSize", JList [JStr "testsize"]); ("concurrency", JInt 3)]
     = Some (JList (map JStr ["testregion"])) /\
   lookup "vmSize" [("templateTags", JList []);
        ("selections", JList [JObj [("casePriority", JList [JInt 1])]]);
        ("region", JList [JStr "testregion"]);
        ("vmSize", JList [JStr "testsize"]); ("concurrency", JInt 3)]
     = Some (if truthy (Some "testsize") then JList [JStr (str_of (Some "testsize"))]
             else JList []) /\
   no_null (JObj [("templateTags", JList []);
        ("selections", JList [JObj [("casePriority", JList [JInt 1])]]);
        ("region", JList [JStr "testregion"]);
        ("vmSize", JList [JStr "testsize"]); ("concurrency", JInt 3)]) = true).
Proof.
  split; [reflexivity|].
  apply (create_template_region_vm_size (Some "testsize") [PyStr "1"] []
           "testlocation" ["testregion"] 3).
  reflexivity.
Defined.

Lemma create_template_selections_witness :
  create_template None [PyStr "1"] ["test_case"] "westus3" [] (JInt 0) =
    Ok [("templateTags", JList []);
        ("selections", JList [JObj [("casePriority", JList [JInt 1]);
                                    ("caseName", JList [JStr "test_case"])]]);
        ("region", JList []); ("vmSize", JList []); ("concurrency", JInt 0)] /\
  has_key "selections"
    [("templateTags", JList []);
     ("selections", JList [JObj [("casePriority", JList [JInt 1]);
                                 ("caseName", JList [JStr "test_case"])]]);
     ("region", JList []); ("vmSize", JList []); ("concurrency", JInt 0)]
  = (nonempty [PyStr "1"] || nonempty ["test_case"]).
Proof.
  split; [reflexivity|].
  apply (proj1 (proj1 create_template_selections None [PyStr "1"]
                  ["test_case"] "westus3" [] (JInt 0) _ eq_refl)).
Defined.

(** ** C3 *)

(** C3 fails as stated: a VHD URL with no URN and the numeric-string
    priority [long_priority] (4301 digits, beyond [int]'s limit) makes
    [make_job_create_request] raise [ValueError] from [_create_template]
    instead of returning a payload. *)
Lemma make_job_create_request_vhd_bad_priority :
  numeric_str long_priority = true /\
  make_job_create_request None (Some "http://foobar") "testjob" None
    "testgroup" "testsub" None [PyStr long_priority] [] "westus3" ["westeurope"]
    (JInt 0) (JInt 2) (Some "x64")
  = Raise (ValueError (msg_max_str_digits 4301)) /\
  forall r, make_job_create_request None (Some "http://foobar") "testjob" None
    "testgroup" "testsub" None [PyStr long_priority] [] "westus3" ["westeurope"]
    (JInt 0) (JInt 2) (Some "x64") <> Ok r.
Proof.
  assert (H : make_job_create_request None (Some "http://foobar") "testjob"
                None "testgroup" "testsub" None [PyStr long_priority] [] "westus3"
                ["westeurope"] (JInt 0) (JInt 2) (Some "x64")
              = Raise (ValueError (msg_max_str_digits 4301)))
    by (vm_compute; reflexivity).
  split; [vm_compute; reflexivity|]. split; [exact H|].
  intros r. rewrite H. discriminate.
Qed.

(** C3 (amended): with a non-empty VHD URL and a falsy URN,
    [make_job_create_request] returns, when [int] accepts every priority,
    the payload whose image dict has type "vhd", url the given URL, and
    none of the keys publisher, offer, sku, version; otherwise it raises
    the exception [int] raises on the first priority it rejects. *)
Theorem make_job_create_request_vhd_image
    v urn job tname rg sub vm ps cs loc rs conc gen arch :
  v <> "" -> truthy urn = false ->
  ((forall p, In p ps -> exists z, py_int p = Ok z) ->
   exists t image,
     make_job_create_request urn (Some v) job tname rg sub vm ps cs loc rs conc
       gen arch
     = Ok (JObj [("location", JStr loc);
                 ("properties",
                   JObj [("jobTemplateName", opt_json tname);
                         ("jobTemplateInstance", JObj t);
                         ("image", JObj image)])],
           get_endpoint ("jobs/" ++ job) rg sub) /\
     lookup "type" image = Some (JStr "vhd") /\
     lookup "url" image = Some (JStr v) /\
     forallb (fun k => negb (has_key k image))
       ["publisher"; "offer"; "sku"; "version"] = true) /\
  (forall pre x post e,
   ps = app pre (x :: post) ->
   (forall p, In p pre -> exists z, py_int p = Ok z) ->
   py_int x = Raise e ->
   make_job_create_request urn (Some v) job tname rg sub vm ps cs loc rs conc
     gen arch = Raise e).
Proof.
  intros Hv Hu.
  assert (Htv : truthy (Some v) = true)
    by (destruct v; [contradiction|reflexivity]).
  unfold make_job_create_request. rewrite Hu, Htv. cbn [andb bind].
  split.
  - intros Hps.
    destruct (create_template_all_ok vm ps cs loc rs conc Hps) as [t Ht].
    rewrite Ht. cbn [bind].
    eexists t, _. split; [reflexivity|]. repeat split.
  - intros pre x post e -> Hpre Hx. unfold create_template.
    assert (Hne : nonempty (app pre (x :: post)) = true)
      by (destruct pre; reflexivity).
    rewrite Hne, (map_int_first_bad pre post x e Hpre Hx). reflexivity.
Qed.

Lemma make_job_create_request_vhd_image_witness :
  ("http://foobar" <> "" /\ truthy (Some "") = false /\
   (forall p, In p [PyStr "1"; PyInt 2] -> exists z, py_int p = Ok z)) /\
  (exists t image,
    make_job_create_request (Some "") (Some "http://foobar") "testjob" None
      "testgroup" "testsub" None [PyStr "1"; PyInt 2] [] "westus3"
      ["westeurope"] (JInt 0) (JInt 2) (Some "x64")
    = Ok (JObj [("location", JStr "westus3");
                ("properties",
                  JObj [("jobTemplateName", opt_json None);
                        ("jobTemplateInstance", JObj t);
                        ("image", JObj image)])],
          get_endpoint ("jobs/" ++ "testjob") "testgroup" "testsub") /\
    lookup "type" image = Some (JStr "vhd") /\
    lookup "url" image = Some (JStr "http://foobar") /\
    forallb (fun k => negb (has_key k image))
      ["publisher"; "offer"; "sku"; "version"] = true) /\
  (py_int (PyStr long_priority) = Raise (ValueError (msg_max_str_digits 4301)) /\
   make_job_create_request (Some "") (Some "http://foobar") "testjob" None
     "testgroup" "testsub" None [PyStr "1"; PyStr long_priority; PyStr "p0"] []
     "westus3" ["westeurope"] (JInt 0) (JInt 2) (Some "x64")
   = Raise (ValueError (msg_max_str_digits 4301))).
Proof.
  assert (Hps : forall p, In p [PyStr "1"; PyInt 2] -> exists z, py_int p = Ok z).
  { intros p [<-|[<-|[]]]; eexists; reflexivity. }
  assert (Hpre : forall p, In p [PyStr "1"] -> exists z, py_int p = Ok z).
  { intros p [<-|[]]; eexists; reflexivity. }
  assert (Hx : py_int (PyStr long_priority)
               = Raise (ValueError (msg_max_str_digits 4301)))
    by (vm_compute; reflexivity).
  split; [split; [discriminate|split; [reflexivity|exact Hps]]|].
  split.
  - apply (make_job_create_request_vhd_image "http://foobar" (Some "")
             "testjob" None "testgroup" "testsub" None [PyStr "1"; PyInt 2] []
             "westus3" ["westeurope"] (JInt 0) (JInt 2) (Some "x64"));
      [discriminate|reflexivity|exact Hps].
  - split; [exact Hx|].
    apply (make_job_create_request_vhd_image "http://foobar" (Some "")
             "testjob" None "testgroup" "testsub" None
             [PyStr "1"; PyStr long_priority; PyStr "p0"] [] "westus3"
             ["westeurope"] (JInt 0) (JInt 2) (Some "x64")
             ltac:(discriminate) eq_refl)
      with (pre := [PyStr "1"]) (x := PyStr long_priority) (post := [PyStr "p0"]);
      [reflexivity|exact Hpre|exact Hx].
Defined.

(** ** C4 *)

(** C4 fails as stated: a well-formed URN with no VHD URL and the
    numeric-string priority [long_priority] makes [make_job_create_request]
    raise [ValueError] from [_create_template] instead of returning a
    payload. *)
Lemma make_job_create_request_urn_bad_priority :
  numeric_str long_priority = true /\
  make_job_create_request (Some "Canonical:ubuntu:jammy:latest") None
    "testjob" None "testgroup" "testsub" None [PyStr long_priority] [] "westus3"
    ["westeurope"] (JInt 0) (JInt 2) (Some "x64")
  = Raise (ValueError (msg_max_str_digits 4301)) /\
  forall r, make_job_create_request (Some "Canonical:ubuntu:jammy:latest") None
    "testjob" None "testgroup" "testsub" None [PyStr long_priority] [] "westus3"
    ["westeurope"] (JInt 0) (JInt 2) (Some "x64") <> Ok r.
Proof.
  assert (H : make_job_create_request (Some "Canonical:ubuntu:jammy:latest")
                None "testjob" None "testgroup" "testsub" None
                [PyStr long_priority] [] "westus3" ["westeurope"] (JInt 0)
                (JInt 2) (Some "x64")
              = Raise (ValueError (msg_max_str_digits 4301)))
    by (vm_compute; reflexivity).
  split; [vm_compute; reflexivity|]. split; [exact H|].
  intros r. rewrite H. discriminate.
Qed.

(** C4 (amended): with no (falsy) VHD URL and a URN that splits on ':'
    into exactly 4 parts, [make_job_create_request] returns, when [int]
    accepts every priority, the payload whose image dict has type
    "marketplace" and publisher, offer, sku, version the 4 parts in order;
    otherwise it raises the exception [int] raises on the first priority it
    rejects. *)
Theorem make_job_create_request_marketplace_image
    u vhd job tname rg sub vm ps cs loc rs conc gen arch :
  truthy vhd = false -> length (py_split ":" u) = 4 ->
  ((forall p, In p ps -> exists z, py_int p = Ok z) ->
   exists t image p o s v,
     py_split ":" u = [p; o; s; v] /\
     make_job_create_request (Some u) vhd job tname rg sub vm ps cs loc rs conc
       gen arch
     = Ok (JObj [("location", JStr loc);
                 ("properties",
                   JObj [("jobTemplateName", opt_json tname);
                         ("jobTemplateInstance", JObj t);
                         ("image", JObj image)])],
           get_endpoint ("jobs/" ++ job) rg sub) /\
     lookup "type" image = Some (JStr "marketplace") /\
     lookup "publisher" image = Some (JStr p) /\
     lookup "offer" image = Some (JStr o) /\
     lookup "sku" image = Some (JStr s) /\
     lookup "version" image = Some (JStr v)) /\
  (forall pre x post e,
   ps = app pre (x :: post) ->
   (forall p, In p pre -> exists z, py_int p = Ok z) ->
   py_int x = Raise e ->
   make_job_create_request (Some u) vhd job tname rg sub vm ps cs loc rs conc
     gen arch = Raise e).
Proof.
  intros Hv Hl.
  assert (Htu : truthy (Some u) = true)
    by (destruct u; [discriminate Hl|reflexivity]).
  unfold make_job_create_request. rewrite Htu, Hv. cbn [andb str_of].
  destruct (py_split ":" u) as [|p [|o [|s [|v [|y l]]]]];
    simpl in Hl; try discriminate Hl.
  cbn [length Nat.eqb negb bind]. split.
  - intros Hps.
    destruct (create_template_all_ok vm ps cs loc rs conc Hps) as [t Ht].
    rewrite Ht. cbn [bind].
    eexists t, _, p, o, s, v. split; [reflexivity|]. split; [reflexivity|].
    repeat split.
  - intros pre x post e -> Hpre Hx. unfold create_template.
    assert (Hne : nonempty (app pre (x :: post)) = true)
      by (destruct pre; reflexivity).
    rewrite Hne, (map_int_first_bad pre post x e Hpre Hx). reflexivity.
Qed.

Lemma make_job_create_request_marketplace_image_witness :
  (truthy None = false /\
   length (py_split ":" "Canonical:ubuntu:jammy:latest") = 4 /\
   (forall p, In p [PyStr "2"] -> exists z, py_int p = Ok z)) /\
  (exists t image p o s v,
    py_split ":" "Canonical:ubuntu:jammy:latest" = [p; o; s; v] /\
    make_job_create_request (Some "Canonical:ubuntu:jammy:latest") None
      "testjob" None "testgroup" "testsub" None [PyStr "2"] [] "westus3"
      ["westeurope"] (JInt 0) (JInt 2) (Some "x64")
    = Ok (JObj [("location", JStr "westus3");
                ("properties",
                  JObj [("jobTemplateName", opt_json None);
                        ("jobTemplateInstance", JObj t);
                        ("image", JObj image)])],
          get_endpoint ("jobs/" ++ "testjob") "testgroup" "testsub") /\
    lookup "type" image = Some (JStr "marketplace") /\
    lookup "publisher" image = Some (JStr p) /\
    lookup "offer" image = Some (JStr o) /\
    lookup "sku" image = Some (JStr s) /\
    lookup "version" image = Some (JStr v)) /\
  (py_int (PyStr long_priority) = Raise (ValueError (msg_max_str_digits 4301)) /\
   make_job_create_request (Some "Canonical:ubuntu:jammy:latest") None
     "testjob" None "testgroup" "testsub" None [PyStr long_priority] []
     "westus3" ["westeurope"] (JInt 0) (JInt 2) (Some "x64")
   = Raise (ValueError (msg_max_str_digits 4301))).
Proof.
  assert (Hps : forall p, In p [PyStr "2"] -> exists z, py_int p = Ok z).
  { intros p [<-|[]]; eexists; reflexivity. }
  assert (Hx : py_int (PyStr long_priority)
               = Raise (ValueError (msg_max_str_digits 4301)))
    by (vm_compute; reflexivity).
  split; [split; [reflexivity|split; [reflexivity|exact Hps]]|].
  split.
  - apply (make_job_create_request_marketplace_image
             "Canonical:ubuntu:jammy:latest" None "testjob" None "testgroup"
             "testsub" None [PyStr "2"] [] "westus3" ["westeurope"] (JInt 0)
             (JInt 2) (Some "x64")); [reflexivity|reflexivity|exact Hps].
  - split; [exact Hx|].
    apply (make_job_create_request_marketplace_image
             "Canonical:ubuntu:jammy:latest" None "testjob" None "testgroup"
             "testsub" None [PyStr long_priority] [] "westus3" ["westeurope"]
             (JInt 0) (JInt 2) (Some "x64") eq_refl eq_refl)
      with (pre := []) (x := PyStr long_priority) (post := []);
      [reflexivity|intros p []|exact Hx].
Defined.

(** ** C7 *)

(** C7: the request of the unit test [test_create_job], for any concurrency
    and VM generation: the endpoint and payload are exactly the expected
    ones. *)
Theorem make_job_create_request_test_create_job (N G : json) :
  make_job_create_request (Some "") (Some "http://foobar") "testjob"
    (Some "testtemplate") "testgroup" "testsub" (Some "testsize")
    [PyInt 1; PyInt 2] [] "testlocation" ["testregion"] N G (Some "testarch")
  = Ok (JObj [("location", JStr "testlocation");
              ("properties",
                JObj [("jobTemplateName", JStr "testtemplate");
                      ("jobTemplateInstance",
                        JObj [("templateTags", JList []);
                              ("selections",
                                JList [JObj [("casePriority",
                                              JList [JInt 1; JInt 2])]]);
                              ("region", JList [JStr "testregion"]);
                              ("vmSize", JList [JStr "testsize"]);
                              ("concurrency", N)]);
                      ("image",
                        JObj [("vhdGeneration", G);
                              ("architecture", JStr "testarch");
                              ("type", JStr "vhd");
                              ("url", JStr "http://foobar")])])],
        "https://eastus2euap.management.azure.com/subscriptions/testsub/resourceGroups/testgroup/providers/Microsoft.AzureImageTestingForLinux/jobs/testjob?api-version=2023-08-01-preview").
Proof. reflexivity. Qed.

(** * Further properties of the client *)

Definition auth_request (tenant_id client_id client_secret : string) : http_req :=
  mk_req POST (auth_url tenant_id) [] (FormData (auth_data client_id client_secret)).

(** The requests among the recorded events, in order. *)
Definition requests_sent (ev : list event) : list http_req :=
  flat_map (fun e => match e with Sent r => [r] | Printed _ => [] end) ev.

Ltac io_unfold :=
  unfold io_bind, io_ret, io_raise, send, print, try_http, raise_for_status,
    print_and_reraise, resp_json, getitem, lift in *.

(** ** [_output_result] *)

(** [_output_result] on a decodable body: a 4xx/5xx status prints the body
    (as [print(resp.json())]) and raises [HTTPError]; any other status
    prints it as [json.dumps(..., indent=2)] and returns.  Either way the
    body is printed exactly once and nothing is sent. *)
Theorem output_result_decodable (r : http_resp) (j : json) (ev : list event) :
  resp_content r = Some j ->
  output_result r ev =
    if is_http_error (status_code r)
    then (app ev [Printed (PrintRepr j)], Fail (HTTPError (status_code r)))
    else (app ev [Printed (PrintDumps j)], Done tt).
Proof.
  intros Hj. unfold output_result. io_unfold. rewrite Hj.
  destruct (is_http_error (status_code r)); reflexivity.
Qed.

Lemma output_result_decodable_witness :
  resp_content (mk_resp 404 (Some (JObj [("error", JStr "NotFound")])))
    = Some (JObj [("error", JStr "NotFound")]) /\
  output_result (mk_resp 404 (Some (JObj [("error", JStr "NotFound")]))) []
    = if is_http_error 404
      then ([Printed (PrintRepr (JObj [("error", JStr "NotFound")]))],
            Fail (HTTPError 404))
      else ([Printed (PrintDumps (JObj [("error", JStr "NotFound")]))], Done tt).
Proof.
  split; [reflexivity|].
  apply (output_result_decodable (mk_resp 404 (Some (JObj [("error", JStr "NotFound")])))
           (JObj [("error", JStr "NotFound")]) []).
  reflexivity.
Defined.

(** [_output_result] on a body [resp.json()] cannot decode raises the
    decode error (also for a 4xx/5xx status, where it replaces the
    [HTTPError]) and prints nothing. *)
Theorem output_result_undecodable (r : http_resp) (ev : list event) :
  resp_content r = None -> output_result r ev = (ev, Fail JSONDecodeError).
Proof.
  intros Hj. unfold output_result. io_unfold. rewrite Hj.
  destruct (is_http_error (status_code r)); reflexivity.
Qed.

Lemma output_result_undecodable_witness :
  resp_content (mk_resp 502 None) = None /\
  output_result (mk_resp 502 None) [] = ([], Fail JSONDecodeError).
Proof.
  split; [reflexivity|]. apply output_result_undecodable. reflexivity.
Defined.

(** ** [auth] *)

(** [auth] sends one POST, without headers, to the tenant's token URL with
    the client-credentials form; on a non-error status whose body is a dict
    with "access_token" it returns that value and prints nothing. *)
Theorem auth_success server tenant_id subscription_id client_id client_secret
    kv token ev :
  is_http_error (status_code (server (auth_request tenant_id client_id client_secret)))
    = false ->
  resp_content (server (auth_request tenant_id client_id client_secret))
    = Some (JObj kv) ->
  lookup "access_token" kv = Some token ->
  auth server tenant_id subscription_id client_id client_secret ev
    = (app ev [Sent (auth_request tenant_id client_id client_secret)], Done token).
Proof.
  intros Hs Hc Hk. unfold auth. io_unfold. fold (auth_request tenant_id client_id client_secret).
  rewrite Hs, Hc. cbn. rewrite Hk. reflexivity.
Qed.

(** [auth] on a 4xx/5xx answer prints the decoded body and raises
    [HTTPError] after its single request. *)
Theorem auth_http_error server tenant_id subscription_id client_id client_secret
    j ev :
  is_http_error (status_code (server (auth_request tenant_id client_id client_secret)))
    = true ->
  resp_content (server (auth_request tenant_id client_id client_secret)) = Some j ->
  auth server tenant_id subscription_id client_id client_secret ev
    = (app ev [Sent (auth_request tenant_id client_id client_secret);
               Printed (PrintRepr j)],
       Fail (HTTPError (status_code
               (server (auth_request tenant_id client_id client_secret))))).
Proof.
  intros Hs Hc. unfold auth. io_unfold. fold (auth_request tenant_id client_id client_secret).
  rewrite Hs, Hc. cbn. rewrite <- app_assoc. reflexivity.
Qed.

(** [auth] on a successful answer whose dict has no "access_token" raises
    [KeyError('access_token')]. *)
Theorem auth_missing_token server tenant_id subscription_id client_id
    client_secret kv ev :
  is_http_error (status_code (server (auth_request tenant_id client_id client_secret)))
    = false ->
  resp_content (server (auth_request tenant_id client_id client_secret))
    = Some (JObj kv) ->
  lookup "access_token" kv = None ->
  auth server tenant_id subscription_id client_id client_secret ev
    = (app ev [Sent (auth_request tenant_id client_id client_secret)],
       Fail (KeyError "access_token")).
Proof.
  intros Hs Hc Hk. unfold auth. io_unfold. fold (auth_request tenant_id client_id client_secret).
  rewrite Hs, Hc. cbn. rewrite Hk. reflexivity.
Qed.

(** A token server, one that rejects the client, and one whose answer has
    no token; every other request is answered 200 with an empty listing. *)
Definition test_server (r : http_req) : http_resp :=
  match req_method r with
  | POST => mk_resp 200 (Some (JObj [("token_type", JStr "Bearer");
                                     ("access_token", JStr "tok")]))
  | _ => mk_resp 200 (Some (JObj [("value", JList [])]))
  end.

Definition denying_server (r : http_req) : http_resp :=
  match req_method r with
  | POST => mk_resp 401 (Some (JObj [("error", JStr "invalid_client")]))
  | _ => mk_resp 200 (Some (JObj [("value", JList [])]))
  end.

Definition tokenless_server (r : http_req) : http_resp :=
  match req_method r with
  | POST => mk_resp 200 (Some (JObj [("token_type", JStr "Bearer")]))
  | _ => mk_resp 200 (Some (JObj [("value", JList [])]))
  end.

Lemma auth_success_witness :
  (is_http_error (status_code (test_server (auth_request "tenant" "cid" "secret")))
     = false /\
   resp_content (test_server (auth_request "tenant" "cid" "secret"))
     = Some (JObj [("token_type", JStr "Bearer"); ("access_token", JStr "tok")]) /\
   lookup "access_token" [("token_type", JStr "Bearer"); ("access_token", JStr "tok")]
     = Some (JStr "tok")) /\
  auth test_server "tenant" "sub" "cid" "secret" []
    = (app [] [Sent (auth_request "tenant" "cid" "secret")], Done (JStr "tok")).
Proof.
  split; [repeat split|].
  apply (auth_success test_server "tenant" "sub" "cid" "secret"
           [("token_type", JStr "Bearer"); ("access_token", JStr "tok")]);
    reflexivity.
Defined.

Lemma auth_http_error_witness :
  (is_http_error (status_code (denying_server (auth_request "tenant" "cid" "bad")))
     = true /\
   resp_content (denying_server (auth_request "tenant" "cid" "bad"))
     = Some (JObj [("error", JStr "invalid_client")])) /\
  auth denying_server "tenant" "sub" "cid" "bad" []
    = (app [] [Sent (auth_request "tenant" "cid" "bad");
               Printed (PrintRepr (JObj [("error", JStr "invalid_client")]))],
       Fail (HTTPError (status_code
               (denying_server (auth_request "tenant" "cid" "bad"))))).
Proof.
  split; [split; reflexivity|].
  apply auth_http_error; reflexivity.
Defined.

Lemma auth_missing_token_witness :
  (is_http_error (status_code (tokenless_server (auth_request "tenant" "cid" "secret")))
     = false /\
   resp_content (tokenless_server (auth_request "tenant" "cid" "secret"))
     = Some (JObj [("token_type", JStr "Bearer")]) /\
   lookup "access_token" [("token_type", JStr "Bearer")] = None) /\
  auth tokenless_server "tenant" "sub" "cid" "secret" []
    = (app [] [Sent (auth_request "tenant" "cid" "secret")],
       Fail (KeyError "access_token")).
Proof.
  split; [repeat split|].
  apply (auth_missing_token tokenless_server "tenant" "sub" "cid" "secret"
           [("token_type", JStr "Bearer")]); reflexivity.
Defined.

(** ** Traces of the command line *)

Lemma requests_sent_app (a b : list event) :
  requests_sent (app a b) = app (requests_sent a) (requests_sent b).
Proof. unfold requests_sent. apply flat_map_app. Qed.

Lemma requests_sent_printed (ps : list printed) :
  requests_sent (map Printed ps) = [].
Proof. induction ps; simpl; auto. Qed.

(** Whatever the server answers, [auth] sends its one request and then
    only prints. *)
Lemma auth_trace server tenant_id subscription_id client_id client_secret ev :
  exists ps o,
    auth server tenant_id subscription_id client_id client_secret ev
    = (app ev (Sent (auth_request tenant_id client_id client_secret)
                 :: map Printed ps), o).
Proof.
  unfold auth. io_unfold. fold (auth_request tenant_id client_id client_secret).
  destruct (server (auth_request tenant_id client_id client_secret)) as [st ct].
  cbn. destruct (is_http_error st), ct as [[| | | |kv]|]; cbn;
    try (destruct (lookup "access_token" kv));
    unfold io_raise, io_ret; rewrite <- ?app_assoc; cbn [app];
    first [ eexists [], _; reflexivity
          | eexists [_], _; reflexivity ].
Qed.

(** [_output_result] never sends anything. *)
Lemma output_result_requests (r : http_resp) (ev : list event) :
  requests_sent (fst (output_result r ev)) = requests_sent ev.
Proof.
  unfold output_result. io_unfold.
  destruct (is_http_error (status_code r)), (resp_content r); cbn;
    rewrite ?requests_sent_app, ?app_nil_r; reflexivity.
Qed.

(** click's call of the callbacks with the options' values reaches the
    handlers' bodies. *)
Lemma as_opt_str_opt_json (o : option string) : as_opt_str (opt_json o) = Some o.
Proof. destruct o; reflexivity. Qed.

Lemma as_strs_strs (l : list string) : as_strs (strs l) = Some l.
Proof.
  unfold as_strs, strs. induction l as [|s l IH]; simpl; [reflexivity|].
  rewrite IH. reflexivity.
Qed.

Lemma run_command_simple server c name :
  run_command server c ListTemplates = list_templates server c /\
  run_command server c (GetTemplate name) = get_template server c name /\
  run_command server c ListJobs = list_jobs server c /\
  run_command server c (GetJob name) = get_job server c name /\
  run_command server c (DeleteJob name) = delete_job server c name.
Proof. repeat split; reflexivity. Qed.

Lemma run_command_create_job server c name urn vhd arch tname gen vm ps cs loc
    conc region :
  run_command server c (CreateJob name urn vhd arch tname gen vm ps cs loc conc region)
  = create_job_cmd server c name urn vhd arch tname gen vm ps cs loc conc region.
Proof.
  unfold run_command, py_call.
  cbv -[create_job_cmd opt_json strs as_opt_str as_strs].
  rewrite !as_opt_str_opt_json, !as_strs_strs. reflexivity.
Qed.

(** When authentication fails, the invocation ends with that failure: the
    subcommand never runs and the only request sent is the auth POST. *)
Theorem cli_auth_failure server resource_group client_id client_secret
    subscription_id tenant_id cmd ev ev' e :
  auth server tenant_id subscription_id client_id client_secret ev = (ev', Fail e) ->
  cli server resource_group client_id client_secret subscription_id tenant_id cmd ev
    = (ev', Fail e) /\
  requests_sent ev'
    = app (requests_sent ev) [auth_request tenant_id client_id client_secret].
Proof.
  intros H. split.
  - unfold cli, io_bind. rewrite H. reflexivity.
  - destruct (auth_trace server tenant_id subscription_id client_id client_secret ev)
      as [ps [o Ho]].
    rewrite H in Ho. injection Ho as -> _.
    rewrite requests_sent_app. cbn. rewrite requests_sent_printed. reflexivity.
Qed.

Lemma cli_auth_failure_witness :
  auth denying_server "tenant" "sub" "cid" "bad" []
    = ([Sent (auth_request "tenant" "cid" "bad");
        Printed (PrintRepr (JObj [("error", JStr "invalid_client")]))],
       Fail (HTTPError 401)) /\
  (cli denying_server "group" "cid" "bad" "sub" "tenant" ListJobs []
    = ([Sent (auth_request "tenant" "cid" "bad");
        Printed (PrintRepr (JObj [("error", JStr "invalid_client")]))],
       Fail (HTTPError 401)) /\
   requests_sent [Sent (auth_request "tenant" "cid" "bad");
                  Printed (PrintRepr (JObj [("error", JStr "invalid_client")]))]
     = app (requests_sent []) [auth_request "tenant" "cid" "bad"]).
Proof.
  assert (H : auth denying_server "tenant" "sub" "cid" "bad" []
              = ([Sent (auth_request "tenant" "cid" "bad");
                  Printed (PrintRepr (JObj [("error", JStr "invalid_client")]))],
                 Fail (HTTPError 401))) by reflexivity.
  split; [exact H|].
  exact (cli_auth_failure denying_server "group" "cid" "bad" "sub" "tenant"
           ListJobs [] _ _ H).
Defined.

Lemma cli_after_auth server resource_group client_id client_secret
    subscription_id tenant_id cmd ev' token :
  auth server tenant_id subscription_id client_id client_secret [] = (ev', Done token) ->
  cli server resource_group client_id client_secret subscription_id tenant_id cmd []
  = run_command server
      (mk_ctx [("Authorization", HBearer token)] resource_group subscription_id)
      cmd ev'.
Proof. intros H. unfold cli, io_bind at 1. rewrite H. reflexivity. Qed.

(** After a successful authentication, each listing, reading or deleting
    subcommand sends exactly one more request: the method and resource
    segment below, under the subscription and resource group of the
    invocation, with the header [Authorization: Bearer <token>] carrying
    the token [auth] returned. *)
Theorem cli_simple_command_requests server resource_group client_id
    client_secret subscription_id tenant_id token name cmd m segment :
  auth server tenant_id subscription_id client_id client_secret []
    = ([Sent (auth_request tenant_id client_id client_secret)], Done token) ->
  In (cmd, m, segment)
    [(ListTemplates, GET, "jobTemplates");
     (GetTemplate name, GET, "jobTemplates/" ++ name);
     (ListJobs, GET, "jobs");
     (GetJob name, GET, "jobs/" ++ name);
     (DeleteJob name, DELETE, "jobs/" ++ name)] ->
  requests_sent
    (fst (cli server resource_group client_id client_secret subscription_id
            tenant_id cmd []))
  = [auth_request tenant_id client_id client_secret;
     mk_req m (get_endpoint segment resource_group subscription_id)
       [("Authorization", HBearer token)] NoBody].
Proof.
  intros Ha Hin. rewrite (cli_after_auth _ _ _ _ _ _ _ _ _ Ha).
  simpl in Hin.
  destruct (run_command_simple server
              (mk_ctx [("Authorization", HBearer token)] resource_group
                 subscription_id) name) as [H1 [H2 [H3 [H4 H5]]]].
  destruct Hin as [[= <- <- <-]|[[= <- <- <-]|[[= <- <- <-]|[[= <- <- <-]|
                  [[= <- <- <-]|[]]]]]];
    rewrite ?H1, ?H2, ?H3, ?H4, ?H5;
    cbn [list_templates get_template list_jobs get_job delete_job
         session_get session_delete io_bind send];
    rewrite output_result_requests; reflexivity.
Qed.

Lemma cli_simple_command_requests_witness :
  (auth test_server "tenant" "sub" "cid" "secret" []
     = ([Sent (auth_request "tenant" "cid" "secret")], Done (JStr "tok")) /\
   In (GetJob "job1", GET, "jobs/" ++ "job1")
     [(ListTemplates, GET, "jobTemplates");
      (GetTemplate "job1", GET, "jobTemplates/" ++ "job1");
      (ListJobs, GET, "jobs");
      (GetJob "job1", GET, "jobs/" ++ "job1");
      (DeleteJob "job1", DELETE, "jobs/" ++ "job1")]) /\
  requests_sent
    (fst (cli test_server "group" "cid" "secret" "sub" "tenant" (GetJob "job1") []))
  = [auth_request "tenant" "cid" "secret";
     mk_req GET (get_endpoint ("jobs/" ++ "job1") "group" "sub")
       [("Authorization", HBearer (JStr "tok"))] NoBody].
Proof.
  assert (Ha : auth test_server "tenant" "sub" "cid" "secret" []
               = ([Sent (auth_request "tenant" "cid" "secret")], Done (JStr "tok")))
    by reflexivity.
  assert (Hin : In (GetJob "job1", GET, "jobs/" ++ "job1")
     [(ListTemplates, GET, "jobTemplates");
      (GetTemplate "job1", GET, "jobTemplates/" ++ "job1");
      (ListJobs, GET, "jobs");
      (GetJob "job1", GET, "jobs/" ++ "job1");
      (DeleteJob "job1", DELETE, "jobs/" ++ "job1")])
    by (simpl; auto 6).
  split; [split; assumption|].
  exact (cli_simple_command_requests test_server "group" "cid" "secret" "sub"
           "tenant" (JStr "tok") "job1" _ _ _ Ha Hin).
Defined.

(** [create-job] authenticates before it validates its input: when
    [make_job_create_request] raises, the invocation ends with that
    [ValueError] after the auth POST, and no PUT is sent. *)
Theorem cli_create_job_invalid server rg client_id client_secret
    sub_id tenant_id token name urn vhd arch tname gen vm ps cs loc
    conc region e :
  auth server tenant_id sub_id client_id client_secret []
    = ([Sent (auth_request tenant_id client_id client_secret)], Done token) ->
  make_job_create_request urn vhd name tname rg sub_id vm
    (map PyStr ps) cs loc region (JInt conc) (JInt gen) arch = Raise e ->
  cli server rg client_id client_secret sub_id tenant_id
    (CreateJob name urn vhd arch tname gen vm ps cs loc conc region) []
  = ([Sent (auth_request tenant_id client_id client_secret)],
     Fail (PyValueError e)).
Proof.
  intros Ha Hm. rewrite (cli_after_auth _ _ _ _ _ _ _ _ _ Ha).
  rewrite run_command_create_job.
  unfold create_job_cmd. cbn [resource_group subscription_id].
  unfold io_bind. rewrite Hm. reflexivity.
Qed.

Lemma cli_create_job_invalid_witness :
  (auth test_server "tenant" "sub" "cid" "secret" []
     = ([Sent (auth_request "tenant" "cid" "secret")], Done (JStr "tok")) /\
   make_job_create_request None None "job1" None "group" "sub" None
     (map PyStr []) [] "westus3" ["westeurope"] (JInt 0) (JInt 2) (Some "x64")
   = Raise (ValueError msg_neither)) /\
  cli test_server "group" "cid" "secret" "sub" "tenant"
    (CreateJob "job1" None None (Some "x64") None 2 None [] [] "westus3" 0
       ["westeurope"]) []
  = ([Sent (auth_request "tenant" "cid" "secret")],
     Fail (PyValueError (ValueError msg_neither))).
Proof.
  split; [split; reflexivity|].
  apply cli_create_job_invalid with (token := JStr "tok"); reflexivity.
Defined.

(** [create-job] with valid input sends, after the auth POST, one PUT of
    the payload built by [make_job_create_request] to the endpoint it
    returned, with the bearer header. *)
Theorem cli_create_job_put server rg client_id client_secret
    sub_id tenant_id token name urn vhd arch tname gen vm ps cs loc
    conc region payload endpoint :
  auth server tenant_id sub_id client_id client_secret []
    = ([Sent (auth_request tenant_id client_id client_secret)], Done token) ->
  make_job_create_request urn vhd name tname rg sub_id vm
    (map PyStr ps) cs loc region (JInt conc) (JInt gen) arch
    = Ok (payload, endpoint) ->
  requests_sent
    (fst (cli server rg client_id client_secret sub_id
            tenant_id (CreateJob name urn vhd arch tname gen vm ps cs loc conc
                         region) []))
  = [auth_request tenant_id client_id client_secret;
     mk_req PUT endpoint [("Authorization", HBearer token)] (JsonBody payload)].
Proof.
  intros Ha Hm. rewrite (cli_after_auth _ _ _ _ _ _ _ _ _ Ha).
  rewrite run_command_create_job.
  unfold create_job_cmd. cbn [resource_group subscription_id].
  unfold io_bind. rewrite Hm.
  cbn [lift io_ret session_put io_bind send session_headers].
  rewrite output_result_requests. reflexivity.
Qed.

Lemma cli_create_job_put_witness :
  (auth test_server "tenant" "sub" "cid" "secret" []
     = ([Sent (auth_request "tenant" "cid" "secret")], Done (JStr "tok")) /\
   make_job_create_request None (Some "http://foobar") "job1" None "group" "sub"
     None (map PyStr []) [] "westus3" ["westeurope"] (JInt 0) (JInt 2)
     (Some "x64")
   = Ok (JObj [("location", JStr "westus3");
               ("properties",
                 JObj [("jobTemplateName", JNull);
                       ("jobTemplateInstance",
                         JObj [("templateTags", JList []);
                               ("region", JList [JStr "westeurope"]);
                               ("vmSize", JList []); ("concurrency", JInt 0)]);
                       ("image",
                         JObj [("vhdGeneration", JInt 2);
                               ("architecture", JStr "x64");
                               ("type", JStr "vhd");
                               ("url", JStr "http://foobar")])])],
         get_endpoint "jobs/job1" "group" "sub")) /\
  requests_sent
    (fst (cli test_server "group" "cid" "secret" "sub" "tenant"
            (CreateJob "job1" None (Some "http://foobar") (Some "x64") None 2
               None [] [] "westus3" 0 ["westeurope"]) []))
  = [auth_request "tenant" "cid" "secret";
     mk_req PUT (get_endpoint "jobs/job1" "group" "sub")
       [("Authorization", HBearer (JStr "tok"))]
       (JsonBody (JObj [("location", JStr "westus3");
               ("properties",
                 JObj [("jobTemplateName", JNull);
                       ("jobTemplateInstance",
                         JObj [("templateTags", JList []);
                               ("region", JList [JStr "westeurope"]);
                               ("vmSize", JList []); ("concurrency", JInt 0)]);
                       ("image",
                         JObj [("vhdGeneration", JInt 2);
                               ("architecture", JStr "x64");
                               ("type", JStr "vhd");
                               ("url", JStr "http://foobar")])])]))].
Proof.
  split; [split; reflexivity|].
  apply cli_create_job_put; reflexivity.
Defined.

(** The [create-template] subcommand never reaches its callback's body:
    whatever the server answers, the invocation fails after the auth POST,
    which is the only request sent; when authentication succeeds the
    failure is the [TypeError] of the call [callback(ctx, **ctx.params)],
    whose keywords name no value for the required [concurrency]
    parameter. *)
Theorem cli_create_template_never_puts server rg client_id client_secret
    sub_id tenant_id name vm ps cs loc region :
  (exists e,
     snd (cli server rg client_id client_secret sub_id tenant_id
            (CreateTemplate name vm ps cs loc region) []) = Fail e) /\
  requests_sent
    (fst (cli server rg client_id client_secret sub_id tenant_id
            (CreateTemplate name vm ps cs loc region) []))
    = [auth_request tenant_id client_id client_secret] /\
  (forall ev' token,
     auth server tenant_id sub_id client_id client_secret [] = (ev', Done token) ->
     cli server rg client_id client_secret sub_id tenant_id
       (CreateTemplate name vm ps cs loc region) [] = (ev', Fail TypeError)).
Proof.
  destruct (auth_trace server tenant_id sub_id client_id client_secret [])
    as [pr [o Ho]].
  assert (Hreq : requests_sent
                   (app [] (Sent (auth_request tenant_id client_id client_secret)
                              :: map Printed pr))
                 = [auth_request tenant_id client_id client_secret]).
  { cbn. rewrite requests_sent_printed. reflexivity. }
  assert (Hcli : cli server rg client_id client_secret sub_id tenant_id
                   (CreateTemplate name vm ps cs loc region) []
                 = (app [] (Sent (auth_request tenant_id client_id client_secret)
                              :: map Printed pr),
                    match o with Done _ => Fail TypeError | Fail e => Fail e end)).
  { unfold cli, io_bind. rewrite Ho. destruct o; reflexivity. }
  rewrite Hcli. cbn [fst snd].
  split; [destruct o; eexists; reflexivity|]. split; [exact Hreq|].
  intros ev' token H. rewrite H in Ho. injection Ho as <- <-. reflexivity.
Qed.

Lemma cli_create_template_never_puts_witness :
  cli test_server "group" "cid" "secret" "sub" "tenant"
    (CreateTemplate "tpl" None ["1"] [] "westus3" ["westeurope"]) []
  = ([Sent (auth_request "tenant" "cid" "secret")], Fail TypeError).
Proof.
  apply (proj2 (proj2 (cli_create_template_never_puts test_server "group" "cid"
                         "secret" "sub" "tenant" "tpl" None ["1"] []
                         "westus3" ["westeurope"]))
           _ (JStr "tok")).
  reflexivity.
Defined.

(** The [create_template] callback body, called with all its arguments:
    when the template cannot be built (a priority [int] rejects) it raises
    that [ValueError] before sending anything; otherwise it sends exactly
    one PUT to [jobTemplates/<name>] whose body is [location], [name] and
    the template as [properties], with the session's headers. *)
Theorem create_template_cmd_requests server c name vm ps cs loc region conc ev :
  requests_sent (fst (create_template_cmd server c name vm ps cs loc region conc ev))
  = app (requests_sent ev)
      (match create_template vm (map PyStr ps) cs loc region conc with
       | Ok t =>
           [mk_req PUT (endpoint_of c ("jobTemplates/" ++ name)) (session_headers c)
              (JsonBody (JObj [("location", JStr loc); ("name", JStr name);
                               ("properties", JObj t)]))]
       | Raise _ => []
       end) /\
  (forall e, create_template vm (map PyStr ps) cs loc region conc = Raise e ->
   create_template_cmd server c name vm ps cs loc region conc ev
   = (ev, Fail (PyValueError e))).
Proof.
  unfold create_template_cmd. split.
  - unfold io_bind at 1.
    destruct (create_template vm (map PyStr ps) cs loc region conc) as [t|e];
      cbn [lift io_ret io_raise fst].
    + cbn [session_put io_bind send].
      rewrite output_result_requests, requests_sent_app. reflexivity.
    + rewrite app_nil_r. reflexivity.
  - intros e He. unfold io_bind at 1. rewrite He. reflexivity.
Qed.

(** ** More on [_create_template] and [make_job_create_request] *)

(** [_create_template] converts the priorities left to right: the first
    one [int] rejects gives the exception, whatever follows it. *)
Theorem create_template_first_bad_priority vm pre x post cs loc rs conc e :
  (forall p, In p pre -> exists z, py_int p = Ok z) ->
  py_int x = Raise e ->
  create_template vm (app pre (x :: post)) cs loc rs conc = Raise e.
Proof.
  intros Hpre Hx. unfold create_template.
  assert (Hne : nonempty (app pre (x :: post)) = true)
    by (destruct pre; reflexivity).
  rewrite Hne, (map_int_first_bad pre post x e Hpre Hx). reflexivity.
Qed.

Lemma create_template_first_bad_priority_witness :
  ((forall p, In p [PyStr "1"] -> exists z, py_int p = Ok z) /\
   py_int (PyStr "it's") = Raise (ValueError (msg_invalid_literal "it's"))) /\
  create_template None (app [PyStr "1"] (PyStr "it's" :: [PyStr "x"])) []
    "westus3" [] (JInt 0)
  = Raise (ValueError (msg_invalid_literal "it's")).
Proof.
  assert (Hpre : forall p, In p [PyStr "1"] -> exists z, py_int p = Ok z).
  { intros p [<-|[]]. eexists; reflexivity. }
  assert (Hx : py_int (PyStr "it's") = Raise (ValueError (msg_invalid_literal "it's")))
    by reflexivity.
  split; [split; [exact Hpre|exact Hx]|].
  apply create_template_first_bad_priority; [exact Hpre|exact Hx].
Defined.

Lemma create_template_of_map_int vm ps cs loc rs conc zs :
  map_int ps = Ok zs -> exists t, create_template vm ps cs loc rs conc = Ok t.
Proof.
  intros H. unfold create_template.
  destruct (nonempty ps); simpl; [rewrite H; simpl|]; eexists; reflexivity.
Qed.

(** [make_job_create_request] returns (rather than raises) exactly when one
    image source is given, a given URN splits on ':' into 4 parts, and every
    priority passes [int]; the endpoint it returns is always the job's
    endpoint. *)
Theorem make_job_create_request_ok_iff urn vhd job tname rg sub vm ps cs loc rs
    conc gen arch :
  ((exists r, make_job_create_request urn vhd job tname rg sub vm ps cs loc rs
                conc gen arch = Ok r)
   <-> (xorb (truthy urn) (truthy vhd) = true /\
        (truthy urn = true -> length (py_split ":" (str_of urn)) = 4) /\
        exists zs, map_int ps = Ok zs)) /\
  (forall payload endpoint,
     make_job_create_request urn vhd job tname rg sub vm ps cs loc rs conc gen
       arch = Ok (payload, endpoint) ->
     endpoint = get_endpoint ("jobs/" ++ job) rg sub).
Proof.
  assert (Hcase : forall r,
    make_job_create_request urn vhd job tname rg sub vm ps cs loc rs conc gen
      arch = Ok r ->
    (xorb (truthy urn) (truthy vhd) = true /\
     (truthy urn = true -> length (py_split ":" (str_of urn)) = 4) /\
     exists zs, map_int ps = Ok zs) /\
    snd r = get_endpoint ("jobs/" ++ job) rg sub).
  { intros r. unfold make_job_create_request.
    destruct (truthy urn), (truthy vhd); cbn [andb xorb]; try discriminate.
    - destruct (Nat.eqb_spec (length (py_split ":" (str_of urn))) 4) as [Hl|Hl];
        cbn [negb]; [|discriminate].
      destruct (py_split ":" (str_of urn)) as [|p [|o [|s [|v [|x l]]]]];
        simpl in Hl; try discriminate Hl.
      cbn [bind].
      destruct (create_template vm ps cs loc rs conc) as [t|e] eqn:Ht;
        cbn [bind]; [|discriminate].
      intros [= <-].
      destruct (create_template_shape _ _ _ _ _ _ _ Ht) as [zs [Hzs _]].
      split; [|reflexivity]. split; [reflexivity|]. split; [auto|eauto].
    - cbn [bind].
      destruct (create_template vm ps cs loc rs conc) as [t|e] eqn:Ht;
        cbn [bind]; [|discriminate].
      intros [= <-].
      destruct (create_template_shape _ _ _ _ _ _ _ Ht) as [zs [Hzs _]].
      split; [|reflexivity]. split; [reflexivity|]. split; [discriminate|eauto]. }
  split.
  - split.
    + intros [r Hr]. exact (proj1 (Hcase r Hr)).
    + intros [Hx [Hl [zs Hzs]]].
      destruct (create_template_of_map_int vm ps cs loc rs conc zs Hzs) as [t Ht].
      unfold make_job_create_request.
      destruct (truthy urn), (truthy vhd); cbn [andb xorb] in *; try discriminate.
      * specialize (Hl eq_refl).
        destruct (py_split ":" (str_of urn)) as [|p [|o [|s [|v [|x l]]]]];
          simpl in Hl; try discriminate Hl.
        cbn [length Nat.eqb negb bind]. rewrite Ht. eexists. reflexivity.
      * cbn [bind]. rewrite Ht. eexists. reflexivity.
  - intros payload endpoint H. exact (proj2 (Hcase _ H)).
Qed.

Lemma make_job_create_request_ok_iff_witness :
  exists r, make_job_create_request (Some "Canonical:ubuntu:jammy:latest") None
              "job1" None "group" "sub" None [PyStr "0"] [] "westus3" []
              (JInt 0) (JInt 2) (Some "x64") = Ok r.
Proof.
  apply (proj2 (proj1 (make_job_create_request_ok_iff
                         (Some "Canonical:ubuntu:jammy:latest") None "job1" None
                         "group" "sub" None [PyStr "0"] [] "westus3" []
                         (JInt 0) (JInt 2) (Some "x64")))).
  split; [reflexivity|]. split; [reflexivity|]. eexists. reflexivity.
Defined.

(** The keys of a template built by [_create_template], in order:
    "templateTags", then "selections" only when priorities or test cases
    are given, then "region", "vmSize", "concurrency"; no key repeats. *)
Theorem create_template_keys vm ps cs loc rs conc t :
  create_template vm ps cs loc rs conc = Ok t ->
  map fst t = app ["templateTags"]
                (app (if nonempty ps || nonempty cs then ["selections"] else [])
                     ["region"; "vmSize"; "concurrency"]) /\
  NoDup (map fst t).
Proof.
  intros Ht.
  destruct (create_template_shape _ _ _ _ _ _ _ Ht) as [zs [_ ->]].
  destruct ps, cs; cbn; split; try reflexivity;
    repeat constructor; cbn; intuition discriminate.
Qed.

Lemma create_template_keys_witness :
  create_template (Some "Standard_D2s_v3") [PyStr "1"] [] "westus3" []
    (JInt 0)
  = Ok [("templateTags", JList []);
        ("selections", JList [JObj [("casePriority", JList [JInt 1])]]);
        ("region", JList []); ("vmSize", JList [JStr "Standard_D2s_v3"]);
        ("concurrency", JInt 0)] /\
  map fst [("templateTags", JList []);
        ("selections", JList [JObj [("casePriority", JList [JInt 1])]]);
        ("region", JList []); ("vmSize", JList [JStr "Standard_D2s_v3"]);
        ("concurrency", JInt 0)]
  = app ["templateTags"]
      (app (if nonempty [PyStr "1"] || nonempty ([] : list string)
            then ["selections"] else [])
           ["region"; "vmSize"; "concurrency"]).
Proof.
  split; [reflexivity|].
  apply (proj1 (create_template_keys (Some "Standard_D2s_v3") [PyStr "1"] []
                  "westus3" [] (JInt 0) _ eq_refl)).
Defined.

(** ** [_get_endpoint] *)

Lemma list_ascii_of_string_app (a b : string) :
  list_ascii_of_string (a ++ b) = app (list_ascii_of_string a) (list_ascii_of_string b).
Proof. induction a as [|c a IH]; simpl; [reflexivity|]. now rewrite IH. Qed.

Lemma list_ascii_of_string_inj (a b : string) :
  list_ascii_of_string a = list_ascii_of_string b -> a = b.
Proof.
  intros H. rewrite <- (string_of_list_ascii_of_string a),
    <- (string_of_list_ascii_of_string b), H. reflexivity.
Qed.

(** Within one subscription and resource group, [_get_endpoint] gives
    different URLs to different segments, so different template or job
    names (and a template and a job) never share an endpoint. *)
Theorem get_endpoint_segment_injective (s1 s2 rg sub : string) :
  get_endpoint s1 rg sub = get_endpoint s2 rg sub <-> s1 = s2.
Proof.
  split; [|intros ->; reflexivity].
  intros H. apply (f_equal list_ascii_of_string) in H.
  unfold get_endpoint in H. rewrite !list_ascii_of_string_app in H.
  repeat apply app_inv_head in H.
  apply app_inv_tail in H.
  now apply list_ascii_of_string_inj.
Qed.

Lemma get_endpoint_segment_injective_witness :
  get_endpoint ("jobs/" ++ "nightly") "group" "sub"
  <> get_endpoint ("jobTemplates/" ++ "nightly") "group" "sub".
Proof.
  intros H.
  apply (proj1 (get_endpoint_segment_injective ("jobs/" ++ "nightly")
                  ("jobTemplates/" ++ "nightly") "group" "sub")) in H.
  discriminate H.
Defined.

Lemma create_template_cmd_requests_witness :
  create_template None (map PyStr ["high"]) [] "westus3" [] (JInt 0)
    = Raise (ValueError "invalid literal for int() with base 10: 'high'") /\
  create_template_cmd test_server
    (mk_ctx [("Authorization", HBearer (JStr "tok"))] "group" "sub") "tpl" None
    ["high"] [] "westus3" [] (JInt 0) []
  = ([], Fail (PyValueError
                (ValueError "invalid literal for int() with base 10: 'high'"))).
Proof.
  split; [reflexivity|].
  apply (proj2 (create_template_cmd_requests test_server
                  (mk_ctx [("Authorization", HBearer (JStr "tok"))] "group" "sub")
                  "tpl" None ["high"] [] "westus3" [] (JInt 0) [])).
  reflexivity.
Defined.
